(** * Ethiopia GPS dashboard: the filter, aggregation and option-resolver logic

    A shallow embedding of [dashboard.py].  The pandas data frame of survey
    points is a list of records (row order is the frame's order), an object
    cell is [option string] ([None] is NaN), a dropdown value handed to a
    callback is [option string] ([None] is Python's [None]), coordinates are
    IEEE binary64 floats.  The rendering libraries are collaborators: a map is
    modelled by the tree of elements the code adds to it. *)

From Stdlib Require Import PrimFloat.
From stdpp Require Import base list strings sorting.

(** ** Cells, values and their comparisons *)

(** An object-dtype cell: a [str], or NaN for a missing field. *)
Definition cell := option string.

(** What a dropdown hands to a callback: a [str], or [None]. *)
Definition value := option string.

Definition All : string := "All".

(** [series == v], element by element: NaN equals nothing, and nothing equals
    [None]. *)
Definition cell_eq (c : cell) (v : value) : bool :=
  match c, v with
  | Some a, Some b => bool_decide (a = b)
  | _, _ => false
  end.

(** [v == 'All'] and [v != 'All'] on a Python value. *)
Definition is_All (v : value) : bool := bool_decide (v = Some All).
Definition not_All (v : value) : bool := negb (is_All v).

(** Truthiness of a Python value that is a [str] or [None]. *)
Definition truthy (v : value) : bool :=
  match v with
  | Some s => negb (bool_decide (s = ""))
  | None => false
  end.

(** ** 1. The point data *)

(** A row of the CSV as [pd.read_csv] delivers it, under the file's own
    column names. *)
Record RawRow := mkRawRow {
  Region : cell;
  Zone : cell;
  Woreda : cell;
  Kebele : cell;
  latitude : PrimFloat.float;
  longitude : PrimFloat.float
}.

(** A row after [df.rename(columns={...})]. *)
Record Point := mkPoint {
  region : cell;
  zone : cell;
  woreda : cell;
  kebele : cell;
  lat : PrimFloat.float;
  lon : PrimFloat.float
}.

Abbreviation DataFrame := (list Point).

Definition rename (row : RawRow) : Point :=
  {| region := Region row; zone := Zone row; woreda := Woreda row;
     kebele := Kebele row; lat := latitude row; lon := longitude row |}.

(** [x != 0] on a float64 column: IEEE comparison, so [-0.0] counts as zero
    and NaN does not. *)
Definition ne_zero (x : PrimFloat.float) : bool := negb (PrimFloat.eqb x 0%float).

(** The mask [(df['lat'] != 0) & (df['lon'] != 0)]. *)
Definition valid_coords (p : Point) : bool := ne_zero (lat p) && ne_zero (lon p).

(** [df = df[(df['lat'] != 0) & (df['lon'] != 0)]] after the rename. *)
Definition load_points (csv : list RawRow) : DataFrame :=
  filter (λ p, valid_coords p) (rename <$> csv).

(** ** Series helpers *)

(** [series.dropna()] on an object column. *)
Definition dropna (s : list cell) : list string := omap id s.

(** [series.unique()]: the distinct values in order of first appearance. *)
Fixpoint unique (l : list string) : list string :=
  match l with
  | [] => []
  | x :: l => x :: filter (λ y, y ≠ x) (unique l)
  end.

(** [sorted(...)] on strings: ascending, by code point. *)
Definition sorted (l : list string) : list string := merge_sort String.le l.

(** [df[df[col] == v]] *)
Definition select_eq (col : Point → cell) (v : value) (df : DataFrame) : DataFrame :=
  filter (λ p, cell_eq (col p) v) df.

(** [regions = sorted(df['region'].dropna().unique())] *)
Definition regions (df : DataFrame) : list string :=
  sorted (unique (dropna (region <$> df))).

(** ** 4. The filter inside [generate_map] *)

(** Lines 96-102: each constraint is applied when the value is truthy and is
    not ['All']. *)
Definition generate_map_filtered (df : DataFrame)
    (selected_region selected_zone selected_woreda : value) : DataFrame :=
  let filtered := df in
  let filtered :=
    if truthy selected_region && not_All selected_region
    then select_eq region selected_region filtered else filtered in
  let filtered :=
    if truthy selected_zone && not_All selected_zone
    then select_eq zone selected_zone filtered else filtered in
  let filtered :=
    if truthy selected_woreda && not_All selected_woreda
    then select_eq woreda selected_woreda filtered else filtered in
  filtered.

(** ** 6. Callbacks *)

(** An entry [{'label': z, 'value': z}] of a dropdown's options. *)
Record DropdownOption := mkOption {
  label : string;
  opt_value : string
}.

Definition options_of (l : list string) : list DropdownOption :=
  (λ z, {| label := z; opt_value := z |}) <$> l.

(** [set_zone_options]: the zone options and the zone value. *)
Definition set_zone_options (df : DataFrame) (selected_region : value)
    : list DropdownOption * string :=
  let zones :=
    if is_All selected_region
    then [All] ++ sorted (unique (dropna (zone <$> df)))
    else [All] ++ sorted (unique (dropna (zone <$> select_eq region selected_region df))) in
  (options_of zones, All).

(** [set_woreda_options]: the woreda options and the woreda value. *)
Definition set_woreda_options (df : DataFrame) (selected_region selected_zone : value)
    : list DropdownOption * string :=
  let filtered := df in
  let filtered :=
    if not_All selected_region
    then select_eq region selected_region filtered else filtered in
  let filtered :=
    if not_All selected_zone
    then select_eq zone selected_zone filtered else filtered in
  let woredas := [All] ++ sorted (unique (dropna (woreda <$> filtered))) in
  (options_of woredas, All).

(** The filter at the head of [update_stats_and_graphs] (lines 252-258): each
    constraint is applied when the value is not ['All']. *)
Definition stats_filtered (df : DataFrame)
    (selected_region selected_zone selected_woreda : value) : DataFrame :=
  let filtered := df in
  let filtered :=
    if not_All selected_region
    then select_eq region selected_region filtered else filtered in
  let filtered :=
    if not_All selected_zone
    then select_eq zone selected_zone filtered else filtered in
  let filtered :=
    if not_All selected_woreda
    then select_eq woreda selected_woreda filtered else filtered in
  filtered.

(** The values offered by the two resolvers. *)
Definition zonesFor (df : DataFrame) (r : value) : list string :=
  opt_value <$> (set_zone_options df r).1.

Definition woredasFor (df : DataFrame) (r z : value) : list string :=
  opt_value <$> (set_woreda_options df r z).1.

(** ** Frequency tallies *)

(** How often [k] occurs in a column without its missing cells. *)
Definition count_of (k : string) (l : list string) : nat :=
  length (filter (λ x, x = k) l).

(** Stable insertion into a list in descending order of count: the new entry
    goes before the first entry whose count is not larger. *)
Fixpoint insert_desc (e : string * nat) (l : list (string * nat)) : list (string * nat) :=
  match l with
  | [] => [e]
  | e' :: l' => if decide (e'.2 ≤ e.2) then e :: e' :: l' else e' :: insert_desc e l'
  end.

Definition sort_desc (l : list (string * nat)) : list (string * nat) :=
  foldr insert_desc [] l.

(** [series.value_counts().reset_index()] with its two columns named: one row
    per distinct non-missing value (NaN is dropped, as [value_counts] does by
    default), most frequent first, equal counts in order of first appearance. *)
Definition value_counts (s : list cell) : list (string * nat) :=
  let xs := dropna s in
  sort_desc ((λ k, (k, count_of k xs)) <$> unique xs).

(** A chart as handed to plotly: its kind, its title, the column shown on the
    category axis and the rows of the frame it is drawn from. *)
Inductive ChartKind := Bar | Pie.

Record Figure := mkFigure {
  chart : ChartKind;
  title : string;
  category : string;
  series : list (string * nat)
}.

(** [update_stats_and_graphs]: total, region table, bar chart, pie chart. *)
Definition update_stats_and_graphs (df : DataFrame)
    (selected_region selected_zone selected_woreda : value)
    : nat * list (string * nat) * Figure * Figure :=
  let filtered := stats_filtered df selected_region selected_zone selected_woreda in
  let total := length filtered in
  let region_data := value_counts (region <$> filtered) in
  let bar_fig :=
    if is_All selected_woreda
    then mkFigure Bar "Points per Woreda" "woreda" (value_counts (woreda <$> filtered))
    else mkFigure Bar "Points per Kebele" "kebele" (value_counts (kebele <$> filtered)) in
  let pie_fig :=
    if is_All selected_zone
    then mkFigure Pie "Distribution by Zone" "zone" (value_counts (zone <$> filtered))
    else mkFigure Pie "Distribution by Kebele" "kebele" (value_counts (kebele <$> filtered)) in
  (total, region_data, bar_fig, pie_fig).

Definition total_of (out : nat * list (string * nat) * Figure * Figure) : nat := out.1.1.1.
Definition region_data_of (out : nat * list (string * nat) * Figure * Figure)
  : list (string * nat) := out.1.1.2.
Definition bar_fig_of (out : nat * list (string * nat) * Figure * Figure) : Figure := out.1.2.
Definition pie_fig_of (out : nat * list (string * nat) * Figure * Figure) : Figure := out.2.

(** ** Exceptions *)

(** A raised exception: the [KeyError] of the start-up check with its
    argument, or any other subclass of [Exception] with its class name and its
    [str(e)]. *)
Inductive exn :=
  | KeyError (msg : string)
  | OtherException (cls msg : string).

Inductive result (A : Type) :=
  | Ok (a : A)
  | Raise (e : exn).
Arguments Ok {A} a.
Arguments Raise {A} e.

Definition bind {A B} (r : result A) (k : A → result B) : result B :=
  match r with
  | Ok a => k a
  | Raise e => Raise e
  end.

Notation "x ←! r ; k" := (bind r (λ x, k))
  (at level 20, r at level 100, k at level 200, right associativity, only parsing).

(** A [for] loop whose body may raise: the first exception ends it. *)
Fixpoint for_each {A B} (f : A → result B) (l : list A) : result (list B) :=
  match l with
  | [] => Ok []
  | x :: l => y ←! f x; ys ←! for_each f l; Ok (y :: ys)
  end.

(** ** The map as a tree of elements *)

Definition LatLon := (float * float)%type.

(** [[9.0, 38.5]], the default centre. *)
Definition home : LatLon := (9.0%float, 38.5%float).

(** A [folium.CircleMarker] as the loop configures it. *)
Record Circle := mkCircle {
  circle_location : LatLon;
  circle_radius : nat;
  circle_color : string;
  circle_popup : string
}.

Inductive Element (L : Type) :=
  | TileLayer (tiles name : string)
  | GeoJsonLayer (name : string) (layer : L)
  | FeatureGroup (name : string) (circles : list Circle)
  | Marker (location : LatLon) (popup icon_color : string)
  | LayerControl
  | Fullscreen
  | HomeButton (position : string) (home_coords : LatLon) (home_zoom : nat).
Arguments TileLayer {L} tiles name.
Arguments GeoJsonLayer {L} name layer.
Arguments FeatureGroup {L} name circles.
Arguments Marker {L} location popup icon_color.
Arguments LayerControl {L}.
Arguments Fullscreen {L}.
Arguments HomeButton {L} position home_coords home_zoom.

Record FoliumMap (L : Type) := mkMap {
  map_location : LatLon;
  zoom_start : nat;
  children : list (Element L)
}.
Arguments mkMap {L} map_location zoom_start children.
Arguments map_location {L} f.
Arguments zoom_start {L} f.
Arguments children {L} f.

(** The markers placed directly on a map. *)
Definition markers {L} (m : FoliumMap L) : list (LatLon * string) :=
  omap (λ c, match c with Marker loc popup _ => Some (loc, popup) | _ => None end)
       (children m).

(** The collaborating libraries and the Python runtime, as far as the code
    relies on them: the reprojection of boundary geometry from the frame's
    reference system (none, for a file that names none) to a target, the
    construction of the boundary layer and of a circle marker, each of which
    may raise on the data it is given; the rendering of a finished map to an
    HTML string; and the [repr] of a [str]. *)
Class Collaborators := {
  Geometry : Type;
  Layer : Type;
  to_crs : string → option string → Geometry → result Geometry;
  GeoJson : list string → Geometry → result Layer;
  CircleMarker : LatLon → string → result Circle;
  repr_html : FoliumMap Layer → string;
  py_repr : string → string
}.

(** [str(e)]; a [KeyError] prints the [repr] of its argument. *)
Definition str_exn `{Collaborators} (e : exn) : string :=
  match e with
  | KeyError msg => py_repr msg
  | OtherException _ msg => msg
  end.

(** ** 2. The boundary data *)

(** A frame read by [gpd.read_file]: its reference system ([None] when the
    file names none), the names of its attribute columns, and its geometry
    column. *)
Record GeoDataFrame (G : Type) := mkGdf {
  crs : option string;
  attributes : list string;
  geometry : G
}.
Arguments mkGdf {G} crs attributes geometry.
Arguments crs {G} g.
Arguments attributes {G} g.
Arguments geometry {G} g.

(** [gdf.columns]: the attribute columns and the geometry column. *)
Definition columns {G} (g : GeoDataFrame G) : list string :=
  attributes g ++ ["geometry"].

Definition region_col : string := "adm1_name".

(** A list of column names as an f-string prints it: the [repr] of each name,
    separated by a comma and a space, in square brackets. *)
Definition py_repr_list `{Collaborators} (l : list string) : string :=
  "[" +:+ String.concat ", " (py_repr <$> l) +:+ "]".

(** The message of the start-up [KeyError]. *)
Definition missing_column_msg `{Collaborators} (cols : list string) : string :=
  "Column '" +:+ region_col +:+ "' not found. Available: " +:+ py_repr_list cols.

(** A marker's popup; a missing cell prints as [nan]. *)
Definition fmt (c : cell) : string := default "nan" c.

Definition popup_of (row : Point) : string :=
  "<b>Region:</b> " +:+ fmt (region row) +:+ "<br>" +:+
  "<b>Zone:</b> " +:+ fmt (zone row) +:+ "<br>" +:+
  "<b>Woreda:</b> " +:+ fmt (woreda row) +:+ "<br>" +:+
  "<b>Kebele:</b> " +:+ fmt (kebele row).

(** What the module holds once its top-level statements have run. *)
Record App (G : Type) := mkApp {
  app_df : DataFrame;
  app_regions : list string;
  regions_gdf_clean : GeoDataFrame G;
  region_options : list DropdownOption
}.
Arguments mkApp {G} app_df app_regions regions_gdf_clean region_options.
Arguments app_df {G} a.
Arguments app_regions {G} a.
Arguments regions_gdf_clean {G} a.
Arguments region_options {G} a.

(** What the process does that can be seen from outside while the module
    runs: the line it prints after loading, and [app.run], which starts the
    UI server. *)
Inductive Event :=
  | PrintTotal (n : nat)
  | AppRun (host : string) (port : N).

(** [try: body except Exception as e: handler(e)] *)
Definition try_except {A} (body : result A) (handler : exn → result A) : result A :=
  match body with
  | Ok a => Ok a
  | Raise e => handler e
  end.

Section Program.
Context `{Collaborators}.

(** Lines 41-42: the frame is reprojected unless it is in EPSG:4326 already;
    the reprojection may raise. *)
Definition reprojected (shp : GeoDataFrame Geometry) : result (GeoDataFrame Geometry) :=
  if negb (bool_decide (crs shp = Some "EPSG:4326"))
  then g ←! to_crs "EPSG:4326" (crs shp) (geometry shp);
       Ok (mkGdf (Some "EPSG:4326") (attributes shp) g)
  else Ok shp.

(** The top-level statements in order, from the two frames as read from
    disk: the events up to the end or to the statement that raised, and the
    module's state or the exception.  [is_main] tells whether the module runs
    as [__main__], the only case in which it calls [app.run]. *)
Definition startup (csv : list RawRow) (shp : GeoDataFrame Geometry) (is_main : bool)
    : list Event * result (App Geometry) :=
  let df := load_points csv in
  let log := [PrintTotal (length df)] in
  let regions := regions df in
  match reprojected shp with
  | Raise e => (log, Raise e)
  | Ok regions_gdf =>
      if negb (bool_decide (region_col ∈ columns regions_gdf))
      then (log, Raise (KeyError (missing_column_msg (columns regions_gdf))))
      else
        let clean := mkGdf (crs regions_gdf) [region_col] (geometry regions_gdf) in
        let layout := options_of ([All] ++ regions) in
        let log := if is_main then log ++ [AppRun "0.0.0.0" 8050%N] else log in
        (log, Ok (mkApp df regions clean layout))
  end.

(** [generate_map]: base layers, boundaries, one circle per filtered row,
    controls; rendered at the end. *)
Definition generate_map (df : DataFrame) (gdf : GeoDataFrame Geometry)
    (selected_region selected_zone selected_woreda : value) : result string :=
  boundaries ←! GeoJson [region_col] (geometry gdf);
  let filtered := generate_map_filtered df selected_region selected_zone selected_woreda in
  circles ←! for_each
    (λ row, CircleMarker (lat row, lon row) (popup_of row)) filtered;
  Ok (repr_html (mkMap home 6
    [ TileLayer "openstreetmap" "OpenStreetMap";
      TileLayer "https://server.arcgisonline.com/ArcGIS/rest/services/World_Imagery/MapServer/tile/{z}/{y}/{x}" "Satellite";
      GeoJsonLayer "Region Boundaries" boundaries;
      FeatureGroup "GPS Points" circles;
      LayerControl;
      Fullscreen;
      HomeButton "topleft" home 6 ])).

(** The map built in the [except] branch of [update_map]:
    [folium.Map(location, zoom_start)] comes with its default base layer, and
    the marker is added to it. *)
Definition fallback_map (e : exn) : FoliumMap Layer :=
  mkMap home 6
    [ TileLayer "OpenStreetMap" "openstreetmap";
      Marker home ("Error: " +:+ str_exn e) "red" ].

(** [update_map]: the rendered map, or the rendered fallback when
    [generate_map] raised.  The handler's two logging statements are left out;
    its own map has only constant parts. *)
Definition update_map (df : DataFrame) (gdf : GeoDataFrame Geometry)
    (selected_region selected_zone selected_woreda : value) : result string :=
  try_except
    (generate_map df gdf selected_region selected_zone selected_woreda)
    (λ e, Ok (repr_html (fallback_map e))).

End Program.

(** ** The dropdowns and the callbacks wired to them *)

(** The [value] and [options] properties of the three dropdowns.  The region
    dropdown's options are fixed by the layout. *)
Record Controls := mkControls {
  region_value : value;
  zone_options : list DropdownOption;
  zone_value : value;
  woreda_options : list DropdownOption;
  woreda_value : value
}.

Inductive Dropdown := RegionDropdown | ZoneDropdown | WoredaDropdown.

(** The layout: every dropdown on ['All'], the dependent ones without
    options yet. *)
Definition initial_controls : Controls := mkControls (Some All) [] (Some All) [] (Some All).

(** The callback on [Input('region-dropdown', 'value')], writing its two
    outputs. *)
Definition fire_zone_callback (df : DataFrame) (c : Controls) : Controls :=
  let out := set_zone_options df (region_value c) in
  mkControls (region_value c) out.1 (Some out.2) (woreda_options c) (woreda_value c).

(** The callback on the region and zone values, writing its two outputs. *)
Definition fire_woreda_callback (df : DataFrame) (c : Controls) : Controls :=
  let out := set_woreda_options df (region_value c) (zone_value c) in
  mkControls (region_value c) (zone_options c) (zone_value c) out.1 (Some out.2).

(** A dropdown receives a new value and the callbacks that have it as an
    input run, the zone callback before the woreda callback that reads its
    output. *)
Definition on_change (df : DataFrame) (d : Dropdown) (v : value) (c : Controls) : Controls :=
  match d with
  | RegionDropdown =>
      let c := mkControls v (zone_options c) (zone_value c) (woreda_options c) (woreda_value c) in
      fire_woreda_callback df (fire_zone_callback df c)
  | ZoneDropdown =>
      let c := mkControls (region_value c) (zone_options c) v (woreda_options c) (woreda_value c) in
      fire_woreda_callback df c
  | WoredaDropdown =>
      mkControls (region_value c) (zone_options c) (zone_value c) (woreda_options c) v
  end.

(** ** Data used in examples *)

Definition pt (r z w k : cell) (la lo : float) : Point := mkPoint r z w k la lo.

Definition adama : Point :=
  pt (Some "Oromia") (Some "East Shewa") (Some "Adama") (Some "Kebele 01") 8.5%float 39.25%float.
Definition bora : Point :=
  pt (Some "Oromia") (Some "East Shewa") (Some "Bora") (Some "Kebele 07") 8.25%float 38.75%float.
Definition jimma : Point :=
  pt (Some "Oromia") (Some "Jimma") (Some "Kersa") (Some "Kebele 02") 7.75%float 36.875%float.
Definition bahir : Point :=
  pt (Some "Amhara") (Some "West Gojjam") (Some "Bahir Dar Zuria") (Some "Kebele 11") 11.5%float 37.375%float.
(** A row whose region field is empty in the file. *)
Definition stray : Point :=
  pt None (Some "Afder") (Some "Bare") (Some "Kebele 03") 5.125%float 42.25%float.
(** A row whose zone is literally named like the wildcard. *)
Definition odd_zone : Point :=
  pt (Some "Somali") (Some "All") (Some "Bare") None 5.25%float 42.125%float.

Definition sample : DataFrame := [adama; bora; jimma; bahir].

(** ** The constraint a selection puts on one column *)

(** In [update_stats_and_graphs]: no constraint for ['All'], equality
    otherwise. *)
Definition constrains (col : Point → cell) (v : value) (p : Point) : bool :=
  is_All v || cell_eq (col p) v.

(** In [generate_map]: no constraint for ['All'] nor for a falsy value ([None],
    the empty string), equality otherwise. *)
Definition constrains_map (col : Point → cell) (v : value) (p : Point) : bool :=
  negb (truthy v) || is_All v || cell_eq (col p) v.

(** ** Lists *)

Section list_facts.
Context {A : Type}.
Implicit Types P Q : A → bool.

Lemma filter_true P (l : list A) :
  (∀ x, P x = true) → filter (λ x, P x) l = l.
Proof.
  intros HP. induction l as [|x l IH]; [done|].
  rewrite filter_cons_True; [by rewrite IH | by rewrite HP].
Qed.

Lemma filter_false P (l : list A) :
  (∀ x, P x = false) → filter (λ x, P x) l = [].
Proof.
  intros HP. induction l as [|x l IH]; [done|].
  rewrite filter_cons_False; [done|]. rewrite HP. by intros [].
Qed.

Lemma filter_andb P Q (l : list A) :
  filter (λ x, Q x) (filter (λ x, P x) l) = filter (λ x, P x && Q x) l.
Proof.
  induction l as [|x l IH]; [done|].
  rewrite !filter_cons. destruct (P x) eqn:HP; simpl.
  - rewrite filter_cons. destruct (Q x); simpl; by rewrite IH.
  - by rewrite IH.
Qed.

Lemma filter_ext_bool P Q (l : list A) :
  (∀ x, P x = Q x) → filter (λ x, P x) l = filter (λ x, Q x) l.
Proof.
  intros HPQ. induction l as [|x l IH]; [done|].
  rewrite !filter_cons, HPQ, IH. done.
Qed.

Lemma filter_sublist_mono P Q (l : list A) :
  (∀ x, P x = true → Q x = true) →
  filter (λ x, P x) l `sublist_of` filter (λ x, Q x) l.
Proof.
  intros HPQ. induction l as [|x l IH]; [done|].
  rewrite !filter_cons. destruct (P x) eqn:HP; simpl.
  - rewrite (HPQ x HP). simpl. by apply sublist_skip.
  - destruct (Q x); simpl; [by apply sublist_cons|done].
Qed.
End list_facts.

(** ** The two filters as one pass over the frame *)

Lemma select_eq_sublist col v df : select_eq col v df `sublist_of` df.
Proof. apply sublist_filter. Qed.

Lemma elem_of_select_eq col v df p :
  p ∈ select_eq col v df ↔ p ∈ df ∧ ∃ s, v = Some s ∧ col p = Some s.
Proof.
  unfold select_eq. rewrite list_elem_of_filter. unfold cell_eq.
  split.
  - intros [Heq Hin]. split; [done|].
    destruct (col p) as [a|], v as [b|]; try done.
    apply bool_decide_unpack in Heq. subst. eauto.
  - intros [Hin (s & -> & ->)]. split; [|done].
    by apply bool_decide_pack.
Qed.

(** One conditional step of either filter. *)
Lemma guarded_select (g : bool) col v df :
  (if g then select_eq col v df else df)
  = filter (λ p, negb g || cell_eq (col p) v) df.
Proof.
  destruct g; simpl; [done|]. symmetry. by apply (filter_true (λ _, true)).
Qed.

Lemma three_passes (a b c : Point → bool) (df : DataFrame) :
  filter (λ p, c p) (filter (λ p, b p) (filter (λ p, a p) df))
  = filter (λ p, a p && b p && c p) df.
Proof. by rewrite (filter_andb a b), (filter_andb (λ p, a p && b p) c). Qed.

Lemma stats_filtered_filter df r z w :
  stats_filtered df r z w
  = filter (λ p, constrains region r p && constrains zone z p && constrains woreda w p) df.
Proof.
  unfold stats_filtered. cbv zeta. rewrite !guarded_select.
  rewrite (three_passes (λ p, negb (not_All r) || cell_eq (region p) r)
                        (λ p, negb (not_All z) || cell_eq (zone p) z)
                        (λ p, negb (not_All w) || cell_eq (woreda p) w)).
  apply filter_ext_bool. intros p. unfold constrains, not_All.
  by rewrite !negb_involutive.
Qed.

Lemma generate_map_filtered_filter df r z w :
  generate_map_filtered df r z w
  = filter (λ p, constrains_map region r p && constrains_map zone z p
                 && constrains_map woreda w p) df.
Proof.
  unfold generate_map_filtered. cbv zeta. rewrite !guarded_select.
  rewrite (three_passes
             (λ p, negb (truthy r && not_All r) || cell_eq (region p) r)
             (λ p, negb (truthy z && not_All z) || cell_eq (zone p) z)
             (λ p, negb (truthy w && not_All w) || cell_eq (woreda p) w)).
  apply filter_ext_bool. intros p. unfold constrains_map, not_All.
  by rewrite !negb_andb, !negb_involutive.
Qed.

(** A string selection is the wildcard or a concrete name; this is what the
    dropdowns hold. *)
Definition is_str (v : value) : Prop := is_Some v.

(** The constraint of the claim on one column: a record passes when the value
    is ["All"] or absent, or when its field is that very string. *)
Definition passes (col : Point → cell) (v : value) (p : Point) : Prop :=
  v = Some All ∨ v = None ∨ col p = v.

Lemma constrains_passes col v p :
  is_str v → (constrains col v p = true ↔ passes col v p).
Proof.
  intros [s ->]. unfold constrains, passes, is_All, cell_eq.
  rewrite orb_true_iff, bool_decide_eq_true. split.
  - intros [?|Hc]; [by left|]. right; right.
    destruct (col p); [|done]. apply bool_decide_eq_true in Hc. by subst.
  - intros [?|[?|Hc]]; [by left|done|]. right. rewrite Hc.
    by apply bool_decide_eq_true.
Qed.

Lemma constrains_map_passes col v p :
  v ≠ Some "" → (constrains_map col v p = true ↔ passes col v p).
Proof.
  intros Hne. unfold constrains_map, passes, is_All, cell_eq, truthy.
  rewrite !orb_true_iff, bool_decide_eq_true. destruct v as [s|].
  - rewrite negb_true_iff, negb_false_iff, bool_decide_eq_true. split.
    + intros [[->|?]|Hc]; [done|by left|]. right; right.
      destruct (col p); [|done]. apply bool_decide_eq_true in Hc. by subst.
    + intros [?|[?|Hc]]; [by left; right|done|]. right. rewrite Hc.
      by apply bool_decide_eq_true.
  - split; [by right; left|by left; left].
Qed.

(** What [update_stats_and_graphs] keeps when every value is a string. *)
Lemma stats_filtered_exact df r z w p :
  is_str r → is_str z → is_str w →
  p ∈ stats_filtered df r z w
  ↔ p ∈ df ∧ passes region r p ∧ passes zone z p ∧ passes woreda w p.
Proof.
  intros Hr Hz Hw. rewrite stats_filtered_filter, list_elem_of_filter.
  rewrite <- !constrains_passes by done.
  rewrite !Is_true_true, !andb_true_iff. tauto.
Qed.

(** What [generate_map] keeps when no value is the empty string. *)
Lemma generate_map_filtered_exact df r z w p :
  r ≠ Some "" → z ≠ Some "" → w ≠ Some "" →
  p ∈ generate_map_filtered df r z w
  ↔ p ∈ df ∧ passes region r p ∧ passes zone z p ∧ passes woreda w p.
Proof.
  intros Hr Hz Hw. rewrite generate_map_filtered_filter, list_elem_of_filter.
  rewrite <- !constrains_map_passes by done.
  rewrite !Is_true_true, !andb_true_iff. tauto.
Qed.

(** On string values other than the empty one the two filters agree. *)
Lemma filters_agree df r z w :
  truthy r = true → truthy z = true → truthy w = true →
  generate_map_filtered df r z w = stats_filtered df r z w.
Proof.
  intros Hr Hz Hw. rewrite generate_map_filtered_filter, stats_filtered_filter.
  apply filter_ext_bool. intros p. unfold constrains_map, constrains.
  by rewrite Hr, Hz, Hw.
Qed.

(** With the three wildcards both filters return the whole frame. *)
Lemma filters_all df :
  stats_filtered df (Some All) (Some All) (Some All) = df
  ∧ generate_map_filtered df (Some All) (Some All) (Some All) = df.
Proof. done. Qed.

(** A [None] in [update_stats_and_graphs] is compared with the column like any
    other value, and no cell equals it. *)
Lemma stats_filtered_None df z w :
  stats_filtered df None z w = [] ∧ stats_filtered df z None w = []
  ∧ stats_filtered df z w None = [].
Proof.
  rewrite !stats_filtered_filter. repeat split.
  all: apply (filter_false (λ p, _ && _ && _)); intros p.
  all: unfold constrains, cell_eq, is_All; simpl.
  all: destruct (region p), (zone p), (woreda p);
    rewrite ?andb_false_r; simpl; rewrite ?andb_false_r; done.
Qed.

(** In [generate_map] a [None] lifts the constraint. *)
Lemma generate_map_filtered_None df z w :
  generate_map_filtered df None z w = generate_map_filtered df (Some All) z w
  ∧ generate_map_filtered df z None w = generate_map_filtered df z (Some All) w
  ∧ generate_map_filtered df z w None = generate_map_filtered df z w (Some All).
Proof. done. Qed.

(** C1 (defect in the code).  The claim asks that an absent value, like
    ["All"], puts no constraint on its field.  [generate_map] does that, while
    [update_stats_and_graphs] on the same selection compares the column with
    [None] and keeps no row: on the four sample rows with the region absent and
    the other two fields on ["All"], the map shows all four rows and the
    statistics report a total of 0. *)
Theorem C1_absent_value_in_stats_filter :
  generate_map_filtered sample None (Some All) (Some All) = sample
  ∧ stats_filtered sample None (Some All) (Some All) = []
  ∧ total_of (update_stats_and_graphs sample None (Some All) (Some All)) = 0.
Proof. repeat split; reflexivity. Qed.

(** ** Narrowing *)

Lemma constrains_All col p : constrains col (Some All) p = true.
Proof. done. Qed.

Lemma constrains_map_All col p : constrains_map col (Some All) p = true.
Proof. done. Qed.

(** C10.  Both filters are monotone in narrowing: putting any value in place
    of an ["All"] in the region, zone or woreda position gives a sub-collection
    (same records, same order, some left out) of what the original selection
    gave, and every filtered subset is a sub-collection of the loaded frame. *)
Theorem C10_filter_monotone (df : DataFrame) (r z w v : value) :
  (stats_filtered df v z w `sublist_of` stats_filtered df (Some All) z w
   ∧ stats_filtered df r v w `sublist_of` stats_filtered df r (Some All) w
   ∧ stats_filtered df r z v `sublist_of` stats_filtered df r z (Some All)
   ∧ stats_filtered df r z w `sublist_of` df)
  ∧ (generate_map_filtered df v z w `sublist_of` generate_map_filtered df (Some All) z w
     ∧ generate_map_filtered df r v w `sublist_of` generate_map_filtered df r (Some All) w
     ∧ generate_map_filtered df r z v `sublist_of` generate_map_filtered df r z (Some All)
     ∧ generate_map_filtered df r z w `sublist_of` df).
Proof.
  rewrite !stats_filtered_filter, !generate_map_filtered_filter.
  repeat split; try apply sublist_filter.
  all: apply filter_sublist_mono; intros p.
  all: rewrite ?constrains_All, ?constrains_map_All, !andb_true_iff; tauto.
Qed.

(** ** The loader *)

(** The mask of line 28 read on a row of the file. *)
Definition valid_row (row : RawRow) : bool :=
  ne_zero (latitude row) && ne_zero (longitude row).

Lemma load_points_rename csv :
  load_points csv = rename <$> filter (λ row, valid_row row) csv.
Proof.
  unfold load_points. induction csv as [|row csv IH]; [done|].
  rewrite fmap_cons, !filter_cons. fold (valid_row row).
  change (valid_coords (rename row)) with (valid_row row).
  destruct (valid_row row); simpl; by rewrite IH.
Qed.

(** The renaming of lines 18-25 as a relation between a row of the file and a
    row of the frame: [Region] is found under [region], [Zone] under [zone],
    [Woreda] under [woreda], [Kebele] under [kebele], [latitude] under [lat]
    and [longitude] under [lon], each value as it was. *)
Definition renamed (row : RawRow) (p : Point) : Prop :=
  region p = Region row ∧ zone p = Zone row ∧ woreda p = Woreda row
  ∧ kebele p = Kebele row ∧ lat p = latitude row ∧ lon p = longitude row.

Lemma renamed_rename row p : renamed row p ↔ p = rename row.
Proof.
  unfold renamed, rename. split.
  - destruct p; simpl. intros (-> & -> & -> & -> & -> & ->). done.
  - intros ->. done.
Qed.

(** C9.  The loaded frame holds exactly the input rows with [lat != 0] and
    [lon != 0], in the file's order and as often as they occur, each with its
    six values under the new names [region], [zone], [woreda], [kebele], [lat],
    [lon]; a record is in it exactly when it is such a renamed input row with
    [lat != 0] and [lon != 0]; and no input row with [lat == 0] or [lon == 0]
    survives. *)
Theorem C9_load_points (csv : list RawRow) :
  Forall2 renamed (filter (λ row, valid_row row) csv) (load_points csv)
  ∧ load_points csv = rename <$> filter (λ row, valid_row row) csv
  ∧ load_points csv `sublist_of` (rename <$> csv)
  ∧ (∀ p, p ∈ load_points csv
          ↔ (∃ row, row ∈ csv ∧ renamed row p)
            ∧ PrimFloat.eqb (lat p) 0 = false ∧ PrimFloat.eqb (lon p) 0 = false)
  ∧ (∀ row p, renamed row p →
            PrimFloat.eqb (latitude row) 0 = true ∨ PrimFloat.eqb (longitude row) 0 = true →
            p ∉ load_points csv).
Proof.
  split.
  { rewrite load_points_rename.
    induction (filter (λ row, valid_row row) csv) as [|row rows IH]; [constructor|].
    rewrite fmap_cons. constructor; [by apply renamed_rename|done]. }
  split; [apply load_points_rename|].
  split; [apply sublist_filter|].
  assert (Hin : ∀ p, p ∈ load_points csv
          ↔ (∃ row, row ∈ csv ∧ renamed row p)
            ∧ PrimFloat.eqb (lat p) 0 = false ∧ PrimFloat.eqb (lon p) 0 = false).
  { intros p. unfold load_points. rewrite list_elem_of_filter, list_elem_of_fmap.
    unfold valid_coords, ne_zero.
    rewrite Is_true_true, andb_true_iff, !negb_true_iff.
    split.
    - intros [? (row & -> & ?)]. split; [|done]. exists row. split; [done|].
      by apply renamed_rename.
    - intros [(row & ? & ->%renamed_rename) ?]. eauto. }
  split; [exact Hin|].
  intros row p (_ & _ & _ & _ & Hlat & Hlon) Hzero Hmem.
  apply Hin in Hmem as (_ & Hlat0 & Hlon0).
  rewrite Hlat in Hlat0. rewrite Hlon in Hlon0. destruct Hzero; congruence.
Qed.

(** A missing coordinate is NaN, which is not equal to zero: such a row
    stays. *)
Example load_points_keeps_nan :
  load_points [mkRawRow (Some "Tigray") None None None nan 38.875%float]
  = [pt (Some "Tigray") None None None nan 38.875%float].
Proof. reflexivity. Qed.

Lemma C9_load_points_witness :
  let zero_lat := mkRawRow (Some "Oromia") None None None 0%float 38.5%float in
  let kept := mkRawRow None None None None 9%float 38.5%float in
  load_points [zero_lat; kept] = [rename kept]
  ∧ rename zero_lat ∉ load_points [zero_lat; kept].
Proof.
  intros zero_lat kept. split; [reflexivity|].
  apply (C9_load_points [zero_lat; kept]) with (row := zero_lat).
  - by apply renamed_rename.
  - left. reflexivity.
Defined.

(** ** Columns: missing cells, distinct values, sorting *)

Lemma elem_of_dropna (col : Point → cell) (l : DataFrame) (s : string) :
  s ∈ dropna (col <$> l) ↔ ∃ p, p ∈ l ∧ col p = Some s.
Proof.
  unfold dropna. rewrite list_elem_of_omap. split.
  - intros (c & Hc & Hs). apply list_elem_of_fmap in Hc as (p & -> & Hp).
    exists p. by split.
  - intros (p & Hp & Hs). exists (col p). split; [|done].
    apply list_elem_of_fmap. by exists p.
Qed.

Lemma elem_of_unique (l : list string) (x : string) : x ∈ unique l ↔ x ∈ l.
Proof.
  induction l as [|y l IH]; simpl; [done|].
  rewrite !elem_of_cons, list_elem_of_filter, IH.
  destruct (decide (x = y)); tauto.
Qed.

Lemma NoDup_unique (l : list string) : NoDup (unique l).
Proof.
  induction l as [|y l IH]; simpl; [constructor|].
  constructor.
  - rewrite list_elem_of_filter. by intros [? _].
  - by apply NoDup_filter.
Qed.

Lemma sorted_perm (l : list string) : sorted l ≡ₚ l.
Proof. apply merge_sort_Permutation. Qed.

Lemma elem_of_sorted (l : list string) (x : string) : x ∈ sorted l ↔ x ∈ l.
Proof. by rewrite sorted_perm. Qed.

Lemma NoDup_sorted (l : list string) : NoDup l → NoDup (sorted l).
Proof. by rewrite sorted_perm. Qed.

Lemma sorted_ascending (l : list string) : StronglySorted String.le (sorted l).
Proof. apply StronglySorted_merge_sort; apply _. Qed.

(** Ascending without repetition is strictly ascending. *)
Lemma StronglySorted_strict (l : list string) :
  StronglySorted String.le l → NoDup l → StronglySorted (strict String.le) l.
Proof.
  induction 1 as [|x l Hl IH Hx]; intros Hnd; [constructor|].
  apply NoDup_cons in Hnd as [Hnotin Hnd].
  constructor; [by apply IH|].
  apply Forall_forall. intros y Hy. rewrite Forall_forall in Hx.
  apply strict_spec_alt. split; [by apply Hx|].
  intros ->. done.
Qed.

(** The option names a resolver derives from a set of rows. *)
Definition names_of (col : Point → cell) (rows : DataFrame) : list string :=
  sorted (unique (dropna (col <$> rows))).

Lemma elem_of_names_of col rows s :
  s ∈ names_of col rows ↔ ∃ p, p ∈ rows ∧ col p = Some s.
Proof. unfold names_of. by rewrite elem_of_sorted, elem_of_unique, elem_of_dropna. Qed.

Lemma names_of_strict col rows : StronglySorted (strict String.le) (names_of col rows).
Proof.
  apply StronglySorted_strict; [apply sorted_ascending|].
  apply NoDup_sorted, NoDup_unique.
Qed.

Lemma names_of_NoDup col rows : NoDup (names_of col rows).
Proof. apply NoDup_sorted, NoDup_unique. Qed.

Lemma opt_value_options_of (l : list string) : opt_value <$> options_of l = l.
Proof.
  unfold options_of. induction l as [|x l IH]; [done|].
  rewrite !fmap_cons, IH. done.
Qed.

(** The rows a resolver looks at, as one pass over the frame. *)
Lemma zonesFor_eq df r :
  zonesFor df r = All :: names_of zone (filter (λ p, constrains region r p) df).
Proof.
  unfold zonesFor, set_zone_options. cbv zeta.
  change (opt_value <$> (options_of ?l, All).1) with (opt_value <$> options_of l).
  rewrite opt_value_options_of. unfold names_of, constrains.
  destruct (is_All r) eqn:Hr; [|done].
  by rewrite (filter_true (λ p, true || cell_eq (region p) r)).
Qed.

Lemma woredasFor_eq df r z :
  woredasFor df r z
  = All :: names_of woreda (filter (λ p, constrains region r p && constrains zone z p) df).
Proof.
  unfold woredasFor, set_woreda_options. cbv zeta.
  change (opt_value <$> (options_of ?l, All).1) with (opt_value <$> options_of l).
  rewrite opt_value_options_of, !guarded_select.
  rewrite (filter_andb (λ p, negb (not_All r) || cell_eq (region p) r)
                       (λ p, negb (not_All z) || cell_eq (zone p) z)).
  unfold names_of, constrains, not_All. simpl. do 5 f_equal.
  apply filter_ext_bool. intros p. by rewrite !negb_involutive.
Qed.

(** ** The cascading option resolver *)

(** C4.  Both resolvers return ["All"] as the new value of their dropdown
    whatever value comes in; so after any change of the region the zone and the
    woreda are on ["All"], and after any change of the zone the woreda is. *)
Theorem C4_resolver_resets (df : DataFrame) (r z : value) (c : Controls) :
  (set_zone_options df r).2 = All
  ∧ (set_woreda_options df r z).2 = All
  ∧ zone_value (on_change df RegionDropdown r c) = Some All
  ∧ woreda_value (on_change df RegionDropdown r c) = Some All
  ∧ woreda_value (on_change df ZoneDropdown z c) = Some All.
Proof. repeat split. Qed.

(** The rows a selection of region matches in the resolvers. *)
Lemma constrains_true col v p :
  constrains col v p = true ↔ v = Some All ∨ (is_Some v ∧ col p = v).
Proof.
  unfold constrains, is_All, cell_eq.
  rewrite orb_true_iff, bool_decide_eq_true. split.
  - intros [?|Hc]; [by left|right].
    destruct (col p), v; try done. apply bool_decide_eq_true in Hc. by subst.
  - intros [?|[[s ->] Hc]]; [by left|right]. rewrite Hc.
    by apply bool_decide_eq_true.
Qed.

(** C5 (as amended).  [zonesFor] is ["All"] followed by the zone names found,
    missing cells left out, among the rows of the selected region (all rows for
    ["All"]), in strictly ascending order, hence without repetition among
    themselves.  The whole list is free of duplicates exactly when none of
    those rows has a zone that is itself named ["All"]. *)
Theorem C5_zonesFor (df : DataFrame) (r : value) :
  ∃ zs : list string,
    zonesFor df r = All :: zs
    ∧ StronglySorted (strict String.le) zs
    ∧ NoDup zs
    ∧ (∀ s, s ∈ zs ↔ ∃ p, p ∈ df ∧ (r = Some All ∨ (is_Some r ∧ region p = r))
                          ∧ zone p = Some s)
    ∧ (NoDup (zonesFor df r) ↔ All ∉ zs).
Proof.
  exists (names_of zone (filter (λ p, constrains region r p) df)).
  split; [apply zonesFor_eq|].
  split; [apply names_of_strict|].
  split; [apply names_of_NoDup|].
  split.
  - intros s. rewrite elem_of_names_of. split.
    + intros (p & Hp & Hs). apply list_elem_of_filter in Hp as [Hc Hp].
      exists p. apply Is_true_true, constrains_true in Hc. done.
    + intros (p & Hp & Hc & Hs). exists p. split; [|done].
      apply list_elem_of_filter. split; [|done].
      by apply Is_true_true, constrains_true.
  - rewrite zonesFor_eq, NoDup_cons. split; [by intros [? _]|].
    intros ?. split; [done|apply names_of_NoDup].
Qed.

(** C5 (as stated) fails on a frame with a zone named ["All"]: the wildcard is
    put in front of the sorted names without looking at them, so it is listed
    twice; and the list as a whole is not ascending, since a name such as
    ["Afder"] sorts before ["All"]. *)
Lemma C5_zonesFor_duplicate :
  zonesFor [stray; odd_zone] (Some All) = ["All"; "Afder"; "All"]
  ∧ ¬ NoDup (zonesFor [stray; odd_zone] (Some All))
  ∧ ¬ Sorted String.le (zonesFor [stray; odd_zone] (Some All)).
Proof.
  assert (Heq : zonesFor [stray; odd_zone] (Some All) = ["All"; "Afder"; "All"])
    by (vm_compute; reflexivity).
  rewrite Heq. split; [done|]. split.
  - intros Hnd. apply NoDup_cons in Hnd as [Hnotin _]. apply Hnotin.
    by apply list_elem_of_further, list_elem_of_here.
  - intros Hs. apply Sorted_inv in Hs as [_ Hhd]. apply HdRel_inv in Hhd.
    by vm_compute in Hhd.
Qed.

(** C6.  Every name a resolver offers other than ["All"] has a row behind it:
    a zone offered for a region matches at least one row together with that
    region, and a woreda offered for a region and zone matches at least one row
    together with them, in the filter of the statistics and in the filter of
    the map alike. *)
Theorem C6_offered_options_match (df : DataFrame) (r zv : value) (z w : string) :
  (z ∈ zonesFor df r → z ≠ All →
     stats_filtered df r (Some z) (Some All) ≠ []
     ∧ generate_map_filtered df r (Some z) (Some All) ≠ [])
  ∧ (w ∈ woredasFor df r zv → w ≠ All →
     stats_filtered df r zv (Some w) ≠ []
     ∧ generate_map_filtered df r zv (Some w) ≠ []).
Proof.
  assert (Hcell : ∀ (col : Point → cell) s p,
            col p = Some s → cell_eq (col p) (Some s) = true).
  { intros col s p ->. by apply bool_decide_eq_true. }
  assert (Hmap : ∀ col v p, constrains col v p = true → constrains_map col v p = true).
  { intros col v p. unfold constrains, constrains_map.
    rewrite !orb_true_iff. tauto. }
  assert (Hne : ∀ (P : Point → bool) p, p ∈ df → P p = true →
                  filter (λ q, P q) df ≠ []).
  { intros P p Hp HP Hnil.
    assert (Hin : p ∈ filter (λ q, P q) df)
      by (apply list_elem_of_filter; split; [by apply Is_true_true|done]).
    rewrite Hnil in Hin. by apply not_elem_of_nil in Hin. }
  rewrite zonesFor_eq, woredasFor_eq, !stats_filtered_filter,
    !generate_map_filtered_filter.
  split.
  - intros Hz HzAll. apply elem_of_cons in Hz as [?|Hz]; [done|].
    apply elem_of_names_of in Hz as (p & Hp & Hzone).
    apply list_elem_of_filter in Hp as [Hr%Is_true_true Hp].
    split; apply (Hne _ p Hp).
    + unfold constrains at 2 3. rewrite Hr, (Hcell zone z p Hzone).
      by rewrite orb_true_r.
    + unfold constrains_map at 2 3. rewrite (Hmap _ _ _ Hr), (Hcell zone z p Hzone).
      by rewrite orb_true_r.
  - intros Hw HwAll. apply elem_of_cons in Hw as [?|Hw]; [done|].
    apply elem_of_names_of in Hw as (p & Hp & Hwor).
    apply list_elem_of_filter in Hp as [[Hr Hz]%Is_true_true%andb_true_iff Hp].
    split; apply (Hne _ p Hp).
    + unfold constrains at 3. rewrite Hr, Hz, (Hcell woreda w p Hwor).
      by rewrite orb_true_r.
    + unfold constrains_map at 3.
      rewrite (Hmap _ _ _ Hr), (Hmap _ _ _ Hz), (Hcell woreda w p Hwor).
      by rewrite orb_true_r.
Qed.

Lemma C6_offered_options_match_witness :
  (stats_filtered sample (Some "Oromia") (Some "Jimma") (Some All) ≠ []
   ∧ generate_map_filtered sample (Some "Oromia") (Some "Jimma") (Some All) ≠ [])
  ∧ (stats_filtered sample (Some "Oromia") (Some "East Shewa") (Some "Bora") ≠ []
     ∧ generate_map_filtered sample (Some "Oromia") (Some "East Shewa") (Some "Bora") ≠ []).
Proof.
  destruct (C6_offered_options_match sample (Some "Oromia") (Some "East Shewa")
              "Jimma" "Bora") as [Hzone Hworeda].
  split.
  - apply Hzone; [|done].
    change ("Jimma" ∈ ["All"; "East Shewa"; "Jimma"]).
    do 2 apply list_elem_of_further. apply list_elem_of_here.
  - apply Hworeda; [|done].
    change ("Bora" ∈ ["All"; "Adama"; "Bora"]).
    do 2 apply list_elem_of_further. apply list_elem_of_here.
Defined.

(** ** Frequency tallies *)

(** How many rows carry the name [k] in a column. *)
Definition occurrences (col : Point → cell) (k : string) (rows : DataFrame) : nat :=
  length (filter (λ p, col p = Some k) rows).

(** A count-by-column tally of some rows: one entry per name, for exactly the
    names that occur, each with the number of rows carrying it, the larger
    counts first. *)
Definition tally_of (col : Point → cell) (rows : DataFrame) (t : list (string * nat)) : Prop :=
  NoDup t.*1
  ∧ (∀ k c, (k, c) ∈ t ↔ 0 < c ∧ c = occurrences col k rows)
  ∧ StronglySorted (λ a b, b.2 ≤ a.2) t.

Lemma insert_desc_perm e l : insert_desc e l ≡ₚ e :: l.
Proof.
  induction l as [|e' l IH]; simpl; [done|].
  destruct (decide (e'.2 ≤ e.2)); [done|].
  rewrite IH. apply Permutation_swap.
Qed.

Lemma sort_desc_perm l : sort_desc l ≡ₚ l.
Proof.
  induction l as [|e l IH]; simpl; [done|].
  by rewrite insert_desc_perm, IH.
Qed.

Lemma insert_desc_sorted e l :
  StronglySorted (λ a b, b.2 ≤ a.2) l →
  StronglySorted (λ a b, b.2 ≤ a.2) (insert_desc e l).
Proof.
  induction 1 as [|e' l Hl IH He']; simpl; [by repeat constructor|].
  destruct (decide (e'.2 ≤ e.2)) as [Hle|Hgt].
  - constructor; [by constructor|].
    constructor; [done|].
    eapply Forall_impl; [exact He'|]. simpl. intros; lia.
  - constructor; [done|].
    rewrite insert_desc_perm. constructor; [lia|done].
Qed.

Lemma sort_desc_sorted l : StronglySorted (λ a b, b.2 ≤ a.2) (sort_desc l).
Proof.
  induction l as [|e l IH]; simpl; [constructor|].
  by apply insert_desc_sorted.
Qed.

Lemma count_of_cons k x l :
  count_of k (x :: l) = (if decide (x = k) then 1 else 0) + count_of k l.
Proof. unfold count_of. rewrite filter_cons. by destruct (decide (x = k)). Qed.

Lemma count_of_pos k l : 0 < count_of k l ↔ k ∈ l.
Proof.
  induction l as [|x l IH]; [by split; [inversion 1|intros ?%not_elem_of_nil]|].
  rewrite count_of_cons, elem_of_cons.
  destruct (decide (x = k)) as [->|Hne]; [split; [by left|lia]|].
  simpl. rewrite IH. split; [by right|]. intros [?|?]; [by subst|done].
Qed.

Lemma dropna_cons (c : cell) (l : list cell) :
  dropna (c :: l) = match c with Some s => s :: dropna l | None => dropna l end.
Proof. by destruct c. Qed.

Lemma count_of_dropna col k rows :
  count_of k (dropna (col <$> rows)) = occurrences col k rows.
Proof.
  unfold occurrences. induction rows as [|p rows IH]; [done|].
  rewrite fmap_cons, filter_cons, dropna_cons.
  destruct (col p) as [s|] eqn:Hs.
  - rewrite count_of_cons, IH.
    destruct (decide (s = k)) as [->|Hne].
    + by rewrite decide_True.
    + by rewrite decide_False by congruence.
  - by rewrite IH, decide_False.
Qed.

Lemma value_counts_perm (s : list cell) :
  value_counts s ≡ₚ (λ k, (k, count_of k (dropna s))) <$> unique (dropna s).
Proof. apply sort_desc_perm. Qed.

Lemma value_counts_keys (s : list cell) : (value_counts s).*1 ≡ₚ unique (dropna s).
Proof.
  rewrite value_counts_perm, <- list_fmap_compose.
  induction (unique (dropna s)) as [|k ks IH]; [done|].
  rewrite fmap_cons. simpl. by rewrite IH.
Qed.

Lemma elem_of_value_counts (s : list cell) k c :
  (k, c) ∈ value_counts s ↔ 0 < c ∧ c = count_of k (dropna s).
Proof.
  rewrite value_counts_perm, list_elem_of_fmap. split.
  - intros (k' & [= -> ->] & Hk). split; [|done].
    by apply count_of_pos, elem_of_unique.
  - intros [Hpos ->]. exists k. split; [done|].
    by apply elem_of_unique, count_of_pos.
Qed.

(** [value_counts] on a column of rows is the tally by that column. *)
Lemma value_counts_tally col rows : tally_of col rows (value_counts (col <$> rows)).
Proof.
  split; [|split].
  - rewrite value_counts_keys. apply NoDup_unique.
  - intros k c. by rewrite elem_of_value_counts, count_of_dropna.
  - apply sort_desc_sorted.
Qed.

(** The sum of the [count] column of a table. *)
Definition sum_counts (t : list (string * nat)) : nat := sum_list_with snd t.

Lemma length_filter_cons_key (k : string) (ks xs : list string) :
  k ∉ ks →
  length (filter (λ x, x ∈ k :: ks) xs)
  = count_of k xs + length (filter (λ x, x ∈ ks) xs).
Proof.
  intros Hk. induction xs as [|x xs IH]; [done|].
  rewrite count_of_cons, !filter_cons.
  destruct (decide (x = k)) as [->|Hne].
  - rewrite decide_True by apply list_elem_of_here.
    rewrite decide_False by done. simpl. by rewrite IH.
  - destruct (decide (x ∈ ks)) as [Hin|Hnotin].
    + rewrite decide_True by (by apply list_elem_of_further).
      simpl. rewrite IH. lia.
    + rewrite decide_False; [by rewrite IH|].
      intros [?|?]%elem_of_cons; done.
Qed.

Lemma sum_count_of (ks xs : list string) :
  NoDup ks →
  sum_list_with (λ k, count_of k xs) ks = length (filter (λ x, x ∈ ks) xs).
Proof.
  induction 1 as [|k ks Hk Hnd IH]; simpl.
  - induction xs as [|x xs IHxs]; [done|].
    rewrite filter_cons_False; [done|]. apply not_elem_of_nil.
  - by rewrite IH, length_filter_cons_key.
Qed.

Lemma filter_elem_of_unique (xs : list string) :
  filter (λ x, x ∈ unique xs) xs = xs.
Proof.
  assert (H : ∀ ys : list string, (∀ y, y ∈ ys → y ∈ unique xs) →
                filter (λ x, x ∈ unique xs) ys = ys).
  { induction ys as [|y ys IH]; intros Hys; [done|].
    rewrite filter_cons_True by (apply Hys, list_elem_of_here).
    rewrite IH; [done|]. intros y' ?. by apply Hys, list_elem_of_further. }
  apply H. intros y. by rewrite elem_of_unique.
Qed.

(** The counts of a tally add up to the number of cells that are not
    missing. *)
Lemma sum_counts_value_counts (s : list cell) :
  sum_counts (value_counts s) = length (dropna s).
Proof.
  unfold sum_counts. rewrite value_counts_perm.
  transitivity (sum_list_with (λ k, count_of k (dropna s)) (unique (dropna s))).
  - induction (unique (dropna s)) as [|k ks IH]; [done|].
    rewrite fmap_cons. simpl. by rewrite IH.
  - rewrite sum_count_of by apply NoDup_unique.
    by rewrite filter_elem_of_unique.
Qed.

Lemma length_dropna_fmap (col : Point → cell) (rows : DataFrame) :
  length (dropna (col <$> rows)) = length (filter (λ p, is_Some (col p)) rows).
Proof.
  induction rows as [|p rows IH]; [done|].
  rewrite fmap_cons, dropna_cons, filter_cons.
  destruct (col p) as [s|].
  - rewrite decide_True by done. simpl. by rewrite IH.
  - rewrite decide_False; [done|]. by intros [? ?].
Qed.

(** ** Aggregation *)

(** The column a chart is grouped by: the coarse one while the selection is
    ["All"], the kebele once it is anything else. *)
Definition grouping (sel : value) (coarse : Point → cell) : Point → cell :=
  if decide (sel = Some All) then coarse else kebele.

Definition grouping_name (sel : value) (coarse : string) : string :=
  if decide (sel = Some All) then coarse else "kebele".

(** C2.  The bar chart shows the tally of the filtered rows by woreda when the
    woreda selection is ["All"] and by kebele otherwise; the pie chart shows
    their tally by zone when the zone selection is ["All"] and by kebele
    otherwise. *)
Theorem C2_chart_series (df : DataFrame) (r z w : value) :
  let filtered := stats_filtered df r z w in
  let out := update_stats_and_graphs df r z w in
  (chart (bar_fig_of out) = Bar
   ∧ category (bar_fig_of out) = grouping_name w "woreda"
   ∧ tally_of (grouping w woreda) filtered (series (bar_fig_of out)))
  ∧ (chart (pie_fig_of out) = Pie
     ∧ category (pie_fig_of out) = grouping_name z "zone"
     ∧ tally_of (grouping z zone) filtered (series (pie_fig_of out))).
Proof.
  intros filtered out. subst out.
  unfold update_stats_and_graphs, bar_fig_of, pie_fig_of, grouping, grouping_name, is_All.
  cbv zeta. fold filtered. simpl fst. simpl snd. split.
  - destruct (decide (w = Some All)) as [Hw|Hw].
    + rewrite bool_decide_eq_true_2 by done. simpl.
      split; [done|]. split; [done|]. apply value_counts_tally.
    + rewrite bool_decide_eq_false_2 by done. simpl.
      split; [done|]. split; [done|]. apply value_counts_tally.
  - destruct (decide (z = Some All)) as [Hz|Hz].
    + rewrite bool_decide_eq_true_2 by done. simpl.
      split; [done|]. split; [done|]. apply value_counts_tally.
    + rewrite bool_decide_eq_false_2 by done. simpl.
      split; [done|]. split; [done|]. apply value_counts_tally.
Qed.

(** C3 (as amended).  The counts of the region table add up to the number of
    filtered rows whose region is not missing.  That is the total whenever the
    region selection is anything other than ["All"], and whenever no filtered
    row lacks its region. *)
Theorem C3_region_counts_sum (df : DataFrame) (r z w : value) :
  let filtered := stats_filtered df r z w in
  let out := update_stats_and_graphs df r z w in
  sum_counts (region_data_of out) = length (filter (λ p, is_Some (region p)) filtered)
  ∧ total_of out = length filtered
  ∧ (r ≠ Some All → sum_counts (region_data_of out) = total_of out)
  ∧ (Forall (λ p, is_Some (region p)) filtered →
     sum_counts (region_data_of out) = total_of out).
Proof.
  intros filtered out.
  assert (Hsum : sum_counts (region_data_of out)
                 = length (filter (λ p, is_Some (region p)) filtered)).
  { subst out. unfold update_stats_and_graphs, region_data_of. cbv zeta.
    fold filtered. simpl. by rewrite sum_counts_value_counts, length_dropna_fmap. }
  assert (Hall : ∀ l : DataFrame, Forall (λ p, is_Some (region p)) l →
                 filter (λ p, is_Some (region p)) l = l).
  { induction 1 as [|p l Hp Hl IH]; [done|].
    rewrite filter_cons_True by done. by rewrite IH. }
  split; [done|]. split; [done|]. rewrite Hsum.
  change (total_of out) with (length filtered).
  split; [|by intros ->%Hall].
  intros Hr. rewrite Hall; [done|].
  apply Forall_forall. intros p Hp. subst filtered.
  rewrite stats_filtered_filter in Hp. apply list_elem_of_filter in Hp as [Hc _].
  apply Is_true_true in Hc. rewrite !andb_true_iff in Hc.
  destruct Hc as [[Hc _] _]. apply constrains_true in Hc as [?|[[s ->] Hc]]; [done|].
  rewrite Hc. by exists s.
Qed.

(** C3 (as stated) fails on a row whose region is missing: with everything on
    ["All"] the row counts towards the total while the tally of regions leaves
    it out. *)
Lemma C3_region_counts_sum_missing_region :
  let out := update_stats_and_graphs [stray; adama] (Some All) (Some All) (Some All) in
  total_of out = 2
  ∧ region_data_of out = [("Oromia", 1)]
  ∧ sum_counts (region_data_of out) = 1.
Proof. repeat split; reflexivity. Qed.

Lemma C3_region_counts_sum_witness :
  sum_counts (region_data_of
    (update_stats_and_graphs (stray :: sample) (Some "Oromia") (Some All) (Some All)))
  = total_of
      (update_stats_and_graphs (stray :: sample) (Some "Oromia") (Some All) (Some All)).
Proof.
  pose proof (C3_region_counts_sum (stray :: sample) (Some "Oromia") (Some All) (Some All))
    as Hsum.
  cbv zeta in Hsum. destruct Hsum as (_ & _ & Hnarrow & _).
  apply Hnarrow. discriminate.
Defined.

(** ** Start-up *)

Lemma reprojected_attributes `{Collaborators} (shp gdf : GeoDataFrame Geometry) :
  reprojected shp = Ok gdf → attributes gdf = attributes shp.
Proof.
  unfold reprojected. destruct (negb _); [|by intros [= <-]].
  unfold bind. destruct (to_crs _ _ _); [|done]. by intros [= <-].
Qed.

(** No reprojection is asked for when the frame is in EPSG:4326 already. *)
Lemma reprojected_same `{Collaborators} (shp : GeoDataFrame Geometry) :
  crs shp = Some "EPSG:4326" → reprojected shp = Ok shp.
Proof. intros Hcrs. unfold reprojected. by rewrite bool_decide_eq_true_2. Qed.

(** C8 (as amended).  When the boundary frame is in EPSG:4326 already or its
    reprojection succeeds: without an [adm1_name] column the module stops on a
    [KeyError] whose message names the column and lists the columns that are
    there, and [app.run] is never reached; with the column the module runs to
    its end, and started as the main program it starts the server.  When the
    reprojection raises, the module stops on that exception before it looks
    at the columns.  Without the column the module stops on an exception and
    never reaches [app.run], whatever the reprojection does. *)
Theorem C8_startup_column_check `{Collaborators}
    (csv : list RawRow) (shp : GeoDataFrame Geometry) (is_main : bool) :
  (∀ gdf, reprojected shp = Ok gdf →
     (region_col ∉ attributes shp →
        (startup csv shp is_main).2
          = Raise (KeyError (missing_column_msg (attributes shp ++ ["geometry"])))
        ∧ ∀ host port, AppRun host port ∉ (startup csv shp is_main).1)
     ∧ (region_col ∈ attributes shp →
        (∃ app, (startup csv shp is_main).2 = Ok app ∧ app_df app = load_points csv)
        ∧ (AppRun "0.0.0.0" 8050%N ∈ (startup csv shp is_main).1 ↔ is_main = true)))
  ∧ (∀ e, reprojected shp = Raise e →
       (startup csv shp is_main).2 = Raise e
       ∧ ∀ host port, AppRun host port ∉ (startup csv shp is_main).1)
  ∧ (region_col ∉ attributes shp →
       (∃ e, (startup csv shp is_main).2 = Raise e)
       ∧ ∀ host port, AppRun host port ∉ (startup csv shp is_main).1).
Proof.
  assert (Hlog : ∀ host port n, AppRun host port ∉ [PrintTotal n]).
  { intros host port n Hin. apply list_elem_of_singleton in Hin. discriminate. }
  assert (Habsent : ∀ gdf, reprojected shp = Ok gdf → region_col ∉ attributes shp →
            (startup csv shp is_main).2
              = Raise (KeyError (missing_column_msg (attributes shp ++ ["geometry"])))
            ∧ ∀ host port, AppRun host port ∉ (startup csv shp is_main).1).
  { intros gdf Hgdf Hcol. unfold startup. cbv zeta. rewrite Hgdf.
    unfold columns. rewrite (reprojected_attributes _ _ Hgdf).
    rewrite bool_decide_eq_false_2; simpl; [by split|].
    intros [?|Hin]%elem_of_app; [done|].
    apply list_elem_of_singleton in Hin. discriminate. }
  split; [|split].
  - intros gdf Hgdf. split; [by apply (Habsent gdf)|]. intros Hcol.
    unfold startup. cbv zeta. rewrite Hgdf.
    unfold columns. rewrite (reprojected_attributes _ _ Hgdf).
    rewrite bool_decide_eq_true_2 by (apply elem_of_app; by left). simpl.
    split; [by eexists|]. destruct is_main; simpl.
    + split; [done|]. intros _. apply list_elem_of_further, list_elem_of_here.
    + split; [|done]. intros Hin. by apply Hlog in Hin.
  - intros e He. unfold startup. cbv zeta. rewrite He. split; [done|]. intros host port. apply Hlog.
  - intros Hcol. destruct (reprojected shp) as [gdf|e] eqn:Hgdf.
    + destruct (Habsent gdf eq_refl Hcol) as [Hres Hrun]. split; [by eexists|done].
    + unfold startup. cbv zeta. rewrite Hgdf. split; [by eexists|].
      intros host port. apply Hlog.
Qed.

(** ** The map adapter *)

(** [x != x], true of NaN alone. *)
Definition is_nan (x : float) : bool := negb (PrimFloat.eqb x x).

(** The double quote, the single quote and the backslash. *)
Definition dquote : Ascii.ascii := Ascii.ascii_of_nat 34.
Definition squote : Ascii.ascii := Ascii.ascii_of_nat 39.
Definition backslash : Ascii.ascii := Ascii.ascii_of_nat 92.

Fixpoint has_char (c : Ascii.ascii) (s : string) : bool :=
  match s with
  | EmptyString => false
  | String a s => Ascii.eqb a c || has_char c s
  end.

Fixpoint escaped (q : Ascii.ascii) (s : string) : string :=
  match s with
  | EmptyString => EmptyString
  | String a s =>
      if Ascii.eqb a backslash || Ascii.eqb a q
      then String backslash (String a (escaped q s))
      else String a (escaped q s)
  end.

(** [repr] of a text of printable ASCII characters: in single quotes, or in
    double quotes when it holds a single quote and no double quote. *)
Definition repr_text (s : string) : string :=
  let q := if has_char squote s && negb (has_char dquote s) then dquote else squote in
  String q (escaped q s) +:+ String q EmptyString.

(** Collaborators for the examples: a frame without a reference system cannot
    be reprojected, a marker refuses a location with a NaN in it, boundaries
    always build, and the rendering lists the popups of the markers on the
    map. *)
Definition picky : Collaborators := {|
  Geometry := unit;
  Layer := list string;
  to_crs := λ _ source g,
    match source with
    | None => Raise (OtherException "ValueError"
                "Cannot transform naive geometries.  Please set a crs on the object first.")
    | Some _ => Ok g
    end;
  GeoJson := λ fields _, Ok fields;
  CircleMarker := λ loc popup,
    if is_nan loc.1 || is_nan loc.2
    then Raise (OtherException "ValueError" "Location values cannot contain NaNs.")
    else Ok (mkCircle loc 4 "red" popup);
  repr_html := λ m, String.concat "; " (snd <$> markers m);
  py_repr := repr_text
|}.



Lemma C8_startup_column_check_witness :
  (@startup picky [] (mkGdf (Some "EPSG:32637") ["adm1_pcode"] ()) true).2
    = Raise (KeyError "Column 'adm1_name' not found. Available: ['adm1_pcode', 'geometry']")
  ∧ AppRun "0.0.0.0" 8050%N
    ∈ (@startup picky [] (mkGdf (Some "EPSG:32637") ["adm1_name"] ()) true).1.
Proof.
  split.
  - destruct (@C8_startup_column_check picky [] (mkGdf (Some "EPSG:32637") ["adm1_pcode"] ())
                true) as [Hok _].
    destruct (Hok (mkGdf (Some "EPSG:4326") ["adm1_pcode"] ()) eq_refl) as [Habsent _].
    apply Habsent. intros Hin. apply list_elem_of_singleton in Hin. discriminate.
  - destruct (@C8_startup_column_check picky [] (mkGdf (Some "EPSG:32637") ["adm1_name"] ())
                true) as [Hok _].
    destruct (Hok (mkGdf (Some "EPSG:4326") ["adm1_name"] ()) eq_refl) as [_ Hpresent].
    apply Hpresent; [apply list_elem_of_here|done].
Defined.

(** C8 (as stated) fails on a boundary file that names no reference system:
    the reprojection of line 42 comes before the column check and raises, so
    with the column present the module does not run on, no server is started,
    and with the column absent the exception is not the one about the
    column. *)
Lemma C8_startup_without_crs :
  @startup picky [] (mkGdf None ["adm1_name"] ()) true
    = ([PrintTotal 0],
       Raise (OtherException "ValueError"
                "Cannot transform naive geometries.  Please set a crs on the object first."))
  ∧ @startup picky [] (mkGdf None ["adm1_pcode"] ()) true
    = ([PrintTotal 0],
       Raise (OtherException "ValueError"
                "Cannot transform naive geometries.  Please set a crs on the object first.")).
Proof. split; reflexivity. Qed.

(** * Further properties of the code *)

(** ** What each filter keeps, for every value *)

(** The constraint of [update_stats_and_graphs] on one column: ["All"] lets
    every row pass, a string lets the rows with that very name pass, [None]
    lets none pass. *)
Definition selects (col : Point → cell) (v : value) (p : Point) : Prop :=
  v = Some All ∨ (is_Some v ∧ col p = v).

(** The constraint of [generate_map] on one column: ["All"], [None] and the
    empty string let every row pass, any other string the rows with that very
    name. *)
Definition selects_map (col : Point → cell) (v : value) (p : Point) : Prop :=
  v = Some All ∨ v = None ∨ v = Some "" ∨ col p = v.

Lemma constrains_map_true col v p :
  constrains_map col v p = true ↔ selects_map col v p.
Proof.
  unfold constrains_map, selects_map, is_All, cell_eq, truthy.
  rewrite !orb_true_iff, bool_decide_eq_true. destruct v as [s|].
  - rewrite negb_true_iff, negb_false_iff, bool_decide_eq_true. split.
    + intros [[->|?]|Hc]; [by right; right; left|by left|].
      do 3 right. destruct (col p); [|done].
      apply bool_decide_eq_true in Hc. by subst.
    + intros [?|[?|[[= ->]|Hc]]]; [by left; right|done|by left; left|].
      right. rewrite Hc. by apply bool_decide_eq_true.
  - split; [by right; left|by left; left].
Qed.

(** X1.  The subset of [update_stats_and_graphs], for every three values: a
    row of the frame is kept exactly when each column passes its constraint,
    where ["All"] constrains nothing, a string asks for that very name and
    [None] is met by no row. *)
Theorem X1_stats_filter_exact (df : DataFrame) (r z w : value) (p : Point) :
  p ∈ stats_filtered df r z w
  ↔ p ∈ df ∧ selects region r p ∧ selects zone z p ∧ selects woreda w p.
Proof.
  rewrite stats_filtered_filter, list_elem_of_filter.
  unfold selects. rewrite <- !constrains_true.
  rewrite !Is_true_true, !andb_true_iff. tauto.
Qed.

(** X2.  The subset of [generate_map], for every three values: a row of the
    frame is kept exactly when each column passes its constraint, where
    ["All"], [None] and the empty string constrain nothing and any other
    string asks for that very name. *)
Theorem X2_map_filter_exact (df : DataFrame) (r z w : value) (p : Point) :
  p ∈ generate_map_filtered df r z w
  ↔ p ∈ df ∧ selects_map region r p ∧ selects_map zone z p ∧ selects_map woreda w p.
Proof.
  rewrite generate_map_filtered_filter, list_elem_of_filter.
  rewrite <- !constrains_map_true.
  rewrite !Is_true_true, !andb_true_iff. tauto.
Qed.

Lemma constrains_constrains_map col v p :
  constrains col v p = true → constrains_map col v p = true.
Proof. unfold constrains, constrains_map. rewrite !orb_true_iff. tauto. Qed.

(** X3.  The rows counted by the statistics are always among the rows drawn
    on the map, in the same order; and when the three values are non-empty
    strings the two subsets are the same. *)
Theorem X3_map_shows_counted_rows (df : DataFrame) (r z w : value) :
  stats_filtered df r z w `sublist_of` generate_map_filtered df r z w
  ∧ (truthy r = true → truthy z = true → truthy w = true →
     generate_map_filtered df r z w = stats_filtered df r z w).
Proof.
  split.
  - rewrite stats_filtered_filter, generate_map_filtered_filter.
    apply filter_sublist_mono. intros p. rewrite !andb_true_iff.
    intros [[? ?] ?]. auto using constrains_constrains_map.
  - intros Hr Hz Hw. rewrite generate_map_filtered_filter, stats_filtered_filter.
    apply filter_ext_bool. intros p. unfold constrains_map, constrains.
    by rewrite Hr, Hz, Hw.
Qed.

Lemma X3_map_shows_counted_rows_witness :
  generate_map_filtered sample (Some "Oromia") (Some "East Shewa") (Some All)
  = stats_filtered sample (Some "Oromia") (Some "East Shewa") (Some All).
Proof.
  apply (X3_map_shows_counted_rows sample (Some "Oromia") (Some "East Shewa") (Some All));
    reflexivity.
Defined.

(** ** Filtering in steps *)

Lemma stats_filtered_twice df r z w r' z' w' :
  stats_filtered (stats_filtered df r z w) r' z' w'
  = filter (λ p, (constrains region r p && constrains zone z p && constrains woreda w p)
                 && (constrains region r' p && constrains zone z' p
                     && constrains woreda w' p)) df.
Proof.
  rewrite (stats_filtered_filter (stats_filtered df r z w)), (stats_filtered_filter df).
  apply (filter_andb
    (λ p, constrains region r p && constrains zone z p && constrains woreda w p)
    (λ p, constrains region r' p && constrains zone z' p && constrains woreda w' p)).
Qed.

Lemma generate_map_filtered_twice df r z w r' z' w' :
  generate_map_filtered (generate_map_filtered df r z w) r' z' w'
  = filter (λ p, (constrains_map region r p && constrains_map zone z p
                  && constrains_map woreda w p)
                 && (constrains_map region r' p && constrains_map zone z' p
                     && constrains_map woreda w' p)) df.
Proof.
  rewrite (generate_map_filtered_filter (generate_map_filtered df r z w)),
    (generate_map_filtered_filter df).
  apply (filter_andb
    (λ p, constrains_map region r p && constrains_map zone z p && constrains_map woreda w p)
    (λ p, constrains_map region r' p && constrains_map zone z' p
          && constrains_map woreda w' p)).
Qed.

(** X4.  Filtering composes, in both filters: filtering a filtered subset
    again by the same selection changes nothing; two selections can be applied
    in either order; and drilling down one field at a time, the others left on
    ["All"], gives the subset of the full selection. *)
Theorem X4_filter_in_steps (df : DataFrame) (r z w r' z' w' : value) :
  (stats_filtered (stats_filtered df r z w) r z w = stats_filtered df r z w
   ∧ stats_filtered (stats_filtered df r z w) r' z' w'
     = stats_filtered (stats_filtered df r' z' w') r z w
   ∧ stats_filtered (stats_filtered df r (Some All) (Some All)) (Some All) z w
     = stats_filtered df r z w)
  ∧ (generate_map_filtered (generate_map_filtered df r z w) r z w
     = generate_map_filtered df r z w
     ∧ generate_map_filtered (generate_map_filtered df r z w) r' z' w'
       = generate_map_filtered (generate_map_filtered df r' z' w') r z w
     ∧ generate_map_filtered (generate_map_filtered df r (Some All) (Some All))
         (Some All) z w
       = generate_map_filtered df r z w).
Proof.
  rewrite !stats_filtered_twice, !generate_map_filtered_twice.
  rewrite !stats_filtered_filter, !generate_map_filtered_filter.
  repeat split; apply filter_ext_bool; intros p.
  all: rewrite ?constrains_All, ?constrains_map_All.
  all: repeat match goal with
       | |- context [constrains ?c ?v ?q] => destruct (constrains c v q)
       | |- context [constrains_map ?c ?v ?q] => destruct (constrains_map c v q)
       end; reflexivity.
Qed.

(** ** The option lists *)

Lemma strictly_sorted_sublist (l1 l2 : list string) :
  StronglySorted (strict String.le) l1 →
  StronglySorted (strict String.le) l2 →
  (∀ x, x ∈ l1 → x ∈ l2) →
  l1 `sublist_of` l2.
Proof.
  intros H1 H2. revert l1 H1.
  induction H2 as [|y l2 H2 IH Hy]; intros l1 H1 Hsub.
  - destruct l1 as [|x l1]; [done|].
    by destruct (not_elem_of_nil x (Hsub x (list_elem_of_here x l1))).
  - destruct H1 as [|x l1 H1 Hx]; [apply sublist_nil_l|].
    rewrite Forall_forall in Hx, Hy.
    destruct (decide (x = y)) as [->|Hne].
    + apply sublist_skip, IH; [done|]. intros x' Hx'.
      destruct (proj1 (elem_of_cons _ _ _) (Hsub x' (list_elem_of_further _ _ _ Hx')))
        as [->|?]; [|done].
      destruct (irreflexivity (strict String.le) y (Hx y Hx')).
    + apply sublist_cons, IH; [by constructor; [|apply Forall_forall]|].
      assert (Hyx : strict String.le y x).
      { apply Hy.
        destruct (proj1 (elem_of_cons _ _ _) (Hsub x (list_elem_of_here _ _)))
          as [?|?]; done. }
      intros x' Hx'.
      destruct (proj1 (elem_of_cons _ _ _) (Hsub x' Hx')) as [->|?]; [|done].
      apply elem_of_cons in Hx' as [->|Hx']; [done|].
      destruct (irreflexivity (strict String.le) y).
      by transitivity x; [|apply Hx].
Qed.

Lemma names_of_mono col (P Q : Point → bool) (df : DataFrame) :
  (∀ p, P p = true → Q p = true) →
  names_of col (filter (λ p, P p) df) `sublist_of` names_of col (filter (λ p, Q p) df).
Proof.
  intros HPQ. apply strictly_sorted_sublist; [apply names_of_strict..|].
  intros s (p & Hp & Hs)%elem_of_names_of. apply elem_of_names_of.
  exists p. split; [|done].
  apply list_elem_of_filter in Hp as [HP%Is_true_true Hp].
  apply list_elem_of_filter. split; [|done]. by apply Is_true_true, HPQ.
Qed.

(** X5.  Each resolver offers, after ["All"], exactly the names found in the
    subset the statistics filter keeps for the same upstream values: the zones
    of the rows kept for (region, "All", "All"), the woredas of the rows kept
    for (region, zone, "All"); each list of names is strictly ascending. *)
Theorem X5_options_are_names_of_subset (df : DataFrame) (r z : value) :
  (∃ zs, zonesFor df r = All :: zs
         ∧ StronglySorted (strict String.le) zs
         ∧ ∀ s, s ∈ zs ↔ ∃ p, p ∈ stats_filtered df r (Some All) (Some All)
                              ∧ zone p = Some s)
  ∧ (∃ ws, woredasFor df r z = All :: ws
           ∧ StronglySorted (strict String.le) ws
           ∧ ∀ s, s ∈ ws ↔ ∃ p, p ∈ stats_filtered df r z (Some All)
                                ∧ woreda p = Some s).
Proof.
  split.
  - exists (names_of zone (filter (λ p, constrains region r p) df)).
    split; [apply zonesFor_eq|]. split; [apply names_of_strict|].
    intros s. rewrite elem_of_names_of, stats_filtered_filter.
    rewrite (filter_ext_bool
      (λ p, constrains region r p && constrains zone (Some All) p
            && constrains woreda (Some All) p)
      (λ p, constrains region r p)); [done|].
    intros p. by rewrite !constrains_All, !andb_true_r.
  - exists (names_of woreda
              (filter (λ p, constrains region r p && constrains zone z p) df)).
    split; [apply woredasFor_eq|]. split; [apply names_of_strict|].
    intros s. rewrite elem_of_names_of, stats_filtered_filter.
    rewrite (filter_ext_bool
      (λ p, constrains region r p && constrains zone z p
            && constrains woreda (Some All) p)
      (λ p, constrains region r p && constrains zone z p)); [done|].
    intros p. by rewrite constrains_All, andb_true_r.
Qed.

(** X6.  Narrowing upstream only takes options away: the zones offered for a
    region are a sub-list of those offered for ["All"], and the woredas
    offered for a region and zone are a sub-list of those offered with the
    zone, or with the region, on ["All"]. *)
Theorem X6_options_narrow (df : DataFrame) (r z : value) :
  zonesFor df r `sublist_of` zonesFor df (Some All)
  ∧ woredasFor df r z `sublist_of` woredasFor df r (Some All)
  ∧ woredasFor df r z `sublist_of` woredasFor df (Some All) z.
Proof.
  rewrite !zonesFor_eq, !woredasFor_eq.
  repeat split; apply sublist_skip.
  - apply (names_of_mono zone (λ p, constrains region r p)
             (λ p, constrains region (Some All) p)). done.
  - apply (names_of_mono woreda
             (λ p, constrains region r p && constrains zone z p)
             (λ p, constrains region r p && constrains zone (Some All) p)).
    intros p. rewrite constrains_All, !andb_true_iff. tauto.
  - apply (names_of_mono woreda
             (λ p, constrains region r p && constrains zone z p)
             (λ p, constrains region (Some All) p && constrains zone z p)).
    intros p. rewrite constrains_All, !andb_true_iff. tauto.
Qed.

(** X7.  What a resolver hands to its dropdown fits together: every option
    has its value as its label, the first option is ["All"], and the value
    returned next to the options is one of them. *)
Theorem X7_resolver_output_well_formed (df : DataFrame) (r z : value) :
  let zone_out := set_zone_options df r in
  let woreda_out := set_woreda_options df r z in
  (Forall (λ o, label o = opt_value o) zone_out.1
   ∧ head zone_out.1 = Some (mkOption All All)
   ∧ zone_out.2 ∈ opt_value <$> zone_out.1)
  ∧ (Forall (λ o, label o = opt_value o) woreda_out.1
     ∧ head woreda_out.1 = Some (mkOption All All)
     ∧ woreda_out.2 ∈ opt_value <$> woreda_out.1).
Proof.
  assert (Hlabel : ∀ l, Forall (λ o, label o = opt_value o) (options_of l)).
  { intros l. apply Forall_forall. intros o Ho.
    apply list_elem_of_fmap in Ho as (s & -> & _). done. }
  intros zone_out woreda_out. split.
  - split; [apply Hlabel|]. split; [by subst zone_out; unfold set_zone_options;
      destruct (is_All r)|].
    change (All ∈ zonesFor df r). rewrite zonesFor_eq. apply list_elem_of_here.
  - split; [apply Hlabel|]. split; [done|].
    change (All ∈ woredasFor df r z). rewrite woredasFor_eq. apply list_elem_of_here.
Qed.

(** ** The module after a successful start *)

Lemma startup_Ok `{Collaborators} csv (shp : GeoDataFrame Geometry) is_main app :
  (startup csv shp is_main).2 = Ok app →
  ∃ gdf, reprojected shp = Ok gdf
         ∧ app = mkApp (load_points csv) (regions (load_points csv))
                   (mkGdf (crs gdf) [region_col] (geometry gdf))
                   (options_of ([All] ++ regions (load_points csv))).
Proof.
  unfold startup. cbv zeta. destruct (reprojected shp) as [gdf|e]; [|done].
  destruct (negb (bool_decide (region_col ∈ columns gdf))); simpl; [done|].
  intros [= <-]. by exists gdf.
Qed.

(** X8.  After a successful start the region dropdown offers ["All"] followed
    by the region names in strictly ascending order, and a name is offered
    exactly when some row of the file carries it and has neither a zero
    latitude nor a zero longitude. *)
Theorem X8_region_options `{Collaborators}
    (csv : list RawRow) (shp : GeoDataFrame Geometry) (is_main : bool)
    (app : App Geometry) :
  (startup csv shp is_main).2 = Ok app →
  opt_value <$> region_options app = All :: app_regions app
  ∧ StronglySorted (strict String.le) (app_regions app)
  ∧ ∀ s, s ∈ app_regions app
         ↔ ∃ row, row ∈ csv ∧ valid_row row = true ∧ Region row = Some s.
Proof.
  intros (gdf & _ & ->)%startup_Ok. simpl. split; [by rewrite opt_value_options_of|].
  split; [apply (names_of_strict region)|].
  intros s. change (regions (load_points csv)) with (names_of region (load_points csv)).
  rewrite elem_of_names_of, load_points_rename. split.
  - intros (p & Hp & Hs). apply list_elem_of_fmap in Hp as (row & -> & Hrow).
    apply list_elem_of_filter in Hrow as [Hv%Is_true_true Hrow]. by exists row.
  - intros (row & Hrow & Hv & Hs). exists (rename row). split; [|done].
    apply list_elem_of_fmap. exists row. split; [done|].
    apply list_elem_of_filter. split; [by apply Is_true_true|done].
Qed.

Lemma X8_region_options_witness :
  let csv := [ mkRawRow (Some "Oromia") None None None 8.5%float 39.25%float;
               mkRawRow (Some "Harari") None None None 0%float 42.125%float;
               mkRawRow (Some "Amhara") None None None 11.5%float 37.375%float ] in
  let app := mkApp (load_points csv) ["Amhara"; "Oromia"]
               (mkGdf (Some "EPSG:4326") [region_col] ())
               (options_of ["All"; "Amhara"; "Oromia"]) in
  opt_value <$> region_options app = ["All"; "Amhara"; "Oromia"].
Proof.
  intros csv app.
  apply (@X8_region_options picky csv
           (mkGdf (Some "EPSG:4326") ["adm1_name"; "adm1_pcode"] ())
           true app).
  reflexivity.
Defined.

(** X9.  After a successful start the boundary frame the maps are drawn from
    is in EPSG:4326 and keeps, besides its geometry, the name column alone;
    its geometry is the file's own when the file is already in EPSG:4326 and
    the reprojected one otherwise. *)
Theorem X9_boundaries_normalised `{Collaborators}
    (csv : list RawRow) (shp : GeoDataFrame Geometry) (is_main : bool)
    (app : App Geometry) :
  (startup csv shp is_main).2 = Ok app →
  crs (regions_gdf_clean app) = Some "EPSG:4326"
  ∧ attributes (regions_gdf_clean app) = [region_col]
  ∧ (if decide (crs shp = Some "EPSG:4326")
     then geometry (regions_gdf_clean app) = geometry shp
     else to_crs "EPSG:4326" (crs shp) (geometry shp)
          = Ok (geometry (regions_gdf_clean app))).
Proof.
  intros (gdf & Hgdf & ->)%startup_Ok. simpl. unfold reprojected in Hgdf.
  destruct (decide (crs shp = Some "EPSG:4326")) as [Hcrs|Hcrs].
  - rewrite bool_decide_eq_true_2 in Hgdf by done. simpl in Hgdf.
    injection Hgdf as <-. done.
  - rewrite bool_decide_eq_false_2 in Hgdf by done. simpl in Hgdf.
    unfold bind in Hgdf. destruct (to_crs _ _ _) as [g|e]; [|done].
    injection Hgdf as <-. done.
Qed.

Lemma X9_boundaries_normalised_witness :
  let app := mkApp [] [] (mkGdf (Some "EPSG:4326") [region_col] ()) (options_of ["All"]) in
  crs (regions_gdf_clean app) = Some "EPSG:4326"
  ∧ attributes (regions_gdf_clean app) = [region_col]
  ∧ @to_crs picky "EPSG:4326" (Some "EPSG:32637") () = Ok (geometry (regions_gdf_clean app)).
Proof.
  intros app.
  apply (@X9_boundaries_normalised picky [] (mkGdf (Some "EPSG:32637") ["adm1_name"] ())
           false app).
  reflexivity.
Defined.

(** ** The region table and the chart series *)

Lemma filter_ne_all_eq (s : string) (l : list string) :
  Forall (λ y, y = s) l → filter (λ y, y ≠ s) l = [].
Proof.
  induction 1 as [|y l Hy Hl IH]; [done|].
  by rewrite filter_cons_False by (by intros ?).
Qed.

Lemma unique_replicate (n : nat) (s : string) :
  unique (replicate n s) = match n with 0 => [] | S _ => [s] end.
Proof.
  destruct n as [|n]; [done|]. simpl. f_equal.
  apply filter_ne_all_eq, Forall_forall. intros y Hy.
  apply elem_of_unique, elem_of_replicate in Hy. by destruct Hy.
Qed.

Lemma count_of_replicate (n : nat) (s : string) : count_of s (replicate n s) = n.
Proof.
  induction n as [|n IH]; [done|].
  simpl replicate. rewrite count_of_cons, decide_True by done. by rewrite IH.
Qed.

Lemma dropna_const (col : Point → cell) (s : string) (rows : DataFrame) :
  Forall (λ p, col p = Some s) rows →
  dropna (col <$> rows) = replicate (length rows) s.
Proof.
  induction 1 as [|p rows Hp Hrows IH]; [done|].
  rewrite fmap_cons, dropna_cons, Hp, IH. done.
Qed.

(** X10.  With a region selected, the region table has no row when the subset
    is empty and otherwise the single row of that region with the total as
    its count. *)
Theorem X10_region_table_of_one_region (df : DataFrame) (s : string) (z w : value) :
  s ≠ All →
  region_data_of (update_stats_and_graphs df (Some s) z w)
  = match total_of (update_stats_and_graphs df (Some s) z w) with
    | 0 => []
    | S n => [(s, S n)]
    end.
Proof.
  intros Hs. unfold update_stats_and_graphs, region_data_of, total_of. cbv zeta.
  simpl fst. simpl snd.
  assert (Hreg : Forall (λ p, region p = Some s) (stats_filtered df (Some s) z w)).
  { apply Forall_forall. intros p Hp. rewrite stats_filtered_filter in Hp.
    apply list_elem_of_filter in Hp as [Hc _]. apply Is_true_true in Hc.
    rewrite !andb_true_iff in Hc. destruct Hc as [[Hc _] _].
    apply constrains_true in Hc as [[= ?]|[_ ?]]; done. }
  unfold value_counts. rewrite (dropna_const region s _ Hreg), unique_replicate.
  destruct (length (stats_filtered df (Some s) z w)) as [|n] eqn:Hn; [done|].
  unfold sort_desc. cbn [fmap list_fmap foldr insert_desc].
  by rewrite count_of_replicate.
Qed.

Lemma X10_region_table_of_one_region_witness :
  region_data_of (update_stats_and_graphs sample (Some "Oromia") (Some All) (Some All))
  = [("Oromia", 3)].
Proof.
  apply (X10_region_table_of_one_region sample "Oromia" (Some All) (Some All)).
  discriminate.
Defined.

(** X11.  The region table is the tally of the subset by region.  The counts
    of each of the three tables add up to the number of rows of the subset
    whose grouping column is not missing, so to no more than the total. *)
Theorem X11_tables_count_rows (df : DataFrame) (r z w : value) :
  let filtered := stats_filtered df r z w in
  let out := update_stats_and_graphs df r z w in
  tally_of region filtered (region_data_of out)
  ∧ sum_counts (series (bar_fig_of out))
    = length (filter (λ p, is_Some (grouping w woreda p)) filtered)
  ∧ sum_counts (series (pie_fig_of out))
    = length (filter (λ p, is_Some (grouping z zone p)) filtered)
  ∧ sum_counts (region_data_of out) ≤ total_of out
  ∧ sum_counts (series (bar_fig_of out)) ≤ total_of out
  ∧ sum_counts (series (pie_fig_of out)) ≤ total_of out.
Proof.
  intros filtered out.
  assert (Hbar : sum_counts (series (bar_fig_of out))
    = length (filter (λ p, is_Some (grouping w woreda p)) filtered)).
  { subst out. unfold update_stats_and_graphs, bar_fig_of, grouping, is_All.
    cbv zeta. fold filtered. simpl fst. simpl snd.
    destruct (decide (w = Some All)).
    - rewrite bool_decide_eq_true_2 by done. simpl.
      by rewrite sum_counts_value_counts, length_dropna_fmap.
    - rewrite bool_decide_eq_false_2 by done. simpl.
      by rewrite sum_counts_value_counts, length_dropna_fmap. }
  assert (Hpie : sum_counts (series (pie_fig_of out))
    = length (filter (λ p, is_Some (grouping z zone p)) filtered)).
  { subst out. unfold update_stats_and_graphs, pie_fig_of, grouping, is_All.
    cbv zeta. fold filtered. simpl snd.
    destruct (decide (z = Some All)).
    - rewrite bool_decide_eq_true_2 by done. simpl.
      by rewrite sum_counts_value_counts, length_dropna_fmap.
    - rewrite bool_decide_eq_false_2 by done. simpl.
      by rewrite sum_counts_value_counts, length_dropna_fmap. }
  assert (Hreg : sum_counts (region_data_of out)
    = length (filter (λ p, is_Some (region p)) filtered)).
  { subst out. unfold update_stats_and_graphs, region_data_of. cbv zeta.
    fold filtered. simpl. by rewrite sum_counts_value_counts, length_dropna_fmap. }
  split; [apply value_counts_tally|]. split; [done|]. split; [done|].
  rewrite Hbar, Hpie, Hreg. change (total_of out) with (length filtered).
  repeat split; apply length_filter.
Qed.

(** ** Building the map *)

Lemma for_each_Ok {A B} (f : A → result B) (l : list A) (ys : list B) :
  for_each f l = Ok ys ↔ Forall2 (λ x y, f x = Ok y) l ys.
Proof.
  revert ys. induction l as [|x l IH]; intros ys; simpl.
  - split; [by intros [= <-]; constructor|by inversion 1].
  - unfold bind. destruct (f x) as [y|e] eqn:Hfx.
    + destruct (for_each f l) as [ys'|e] eqn:Hl.
      * split.
        -- intros [= <-]. constructor; [done|]. by apply IH.
        -- inversion 1 as [|? y' ? ys'' Hy Hys]; subst.
           apply IH in Hys. congruence.
      * split; [done|]. inversion 1 as [|? y' ? ys'' Hy Hys]; subst.
        apply IH in Hys. done.
    + split; [done|]. inversion 1; congruence.
Qed.


(** The map [generate_map] renders, given the boundary layer and the circles
    it built. *)
Definition finished_map {L} (boundaries : L) (circles : list Circle) : FoliumMap L :=
  mkMap home 6
    [ TileLayer "openstreetmap" "OpenStreetMap";
      TileLayer "https://server.arcgisonline.com/ArcGIS/rest/services/World_Imagery/MapServer/tile/{z}/{y}/{x}" "Satellite";
      GeoJsonLayer "Region Boundaries" boundaries;
      FeatureGroup "GPS Points" circles;
      LayerControl;
      Fullscreen;
      HomeButton "topleft" home 6 ].

Lemma generate_map_unfold `{Collaborators} df (gdf : GeoDataFrame Geometry) r z w :
  generate_map df gdf r z w
  = match GeoJson [region_col] (geometry gdf) with
    | Ok boundaries =>
        match for_each (λ row, CircleMarker (lat row, lon row) (popup_of row))
                (generate_map_filtered df r z w) with
        | Ok circles => Ok (repr_html (finished_map boundaries circles))
        | Raise e => Raise e
        end
    | Raise e => Raise e
    end.
Proof. done. Qed.

Lemma stats_sublist_map df r z w :
  stats_filtered df r z w `sublist_of` generate_map_filtered df r z w.
Proof.
  rewrite stats_filtered_filter, generate_map_filtered_filter.
  apply filter_sublist_mono. intros p. rewrite !andb_true_iff.
  intros [[? ?] ?]. auto using constrains_constrains_map.
Qed.

(** X12.  A selection that matches no row is no error.  The statistics are a
    total of 0, an empty region table and two charts without entries; and
    when the map's subset is empty, the map is built from the boundary layer
    alone, no circle marker being asked for, so it can only fail on the
    boundaries. *)
Theorem X12_empty_subset `{Collaborators}
    (df : DataFrame) (gdf : GeoDataFrame Geometry) (r z w : value) :
  (stats_filtered df r z w = [] →
     total_of (update_stats_and_graphs df r z w) = 0
     ∧ region_data_of (update_stats_and_graphs df r z w) = []
     ∧ series (bar_fig_of (update_stats_and_graphs df r z w)) = []
     ∧ series (pie_fig_of (update_stats_and_graphs df r z w)) = [])
  ∧ (generate_map_filtered df r z w = [] →
     stats_filtered df r z w = []
     ∧ generate_map df gdf r z w
       = match GeoJson [region_col] (geometry gdf) with
         | Ok boundaries => Ok (repr_html (finished_map boundaries []))
         | Raise e => Raise e
         end).
Proof.
  split.
  - intros Hnil.
    unfold update_stats_and_graphs, total_of, region_data_of, bar_fig_of, pie_fig_of.
    cbv zeta. rewrite Hnil. simpl.
    by destruct (is_All w), (is_All z).
  - intros Hnil. split.
    + apply sublist_nil_r. rewrite <- Hnil. apply stats_sublist_map.
    + rewrite generate_map_unfold, Hnil. done.
Qed.

Lemma X12_empty_subset_witness :
  total_of (update_stats_and_graphs sample (Some "Oromia") (Some "West Gojjam") (Some All)) = 0
  ∧ @generate_map picky sample (mkGdf (Some "EPSG:4326") [region_col] ())
      (Some "Oromia") (Some "West Gojjam") (Some All)
    = Ok "".
Proof.
  destruct (@X12_empty_subset picky sample (mkGdf (Some "EPSG:4326") [region_col] ())
              (Some "Oromia") (Some "West Gojjam") (Some All)) as [Hstats Hmap].
  split.
  - apply Hstats. reflexivity.
  - destruct Hmap as [_ ->]; reflexivity.
Defined.

(** X13.  [generate_map] returns a map exactly when the boundary layer builds
    and a circle marker builds for every row of its subset; the map then holds
    the two base layers, the boundary layer, one circle per row of the subset,
    in the subset's order, placed at the row's [lat], [lon] with the row's
    popup, and the three controls; [update_map] returns that same map. *)
Theorem X13_generate_map_success `{Collaborators}
    (df : DataFrame) (gdf : GeoDataFrame Geometry) (r z w : value) (html : string) :
  (generate_map df gdf r z w = Ok html
   ↔ ∃ boundaries circles,
       GeoJson [region_col] (geometry gdf) = Ok boundaries
       ∧ Forall2 (λ row c, CircleMarker (lat row, lon row) (popup_of row) = Ok c)
           (generate_map_filtered df r z w) circles
       ∧ html = repr_html (finished_map boundaries circles))
  ∧ (generate_map df gdf r z w = Ok html → update_map df gdf r z w = Ok html).
Proof.
  split; [|by unfold update_map; intros ->].
  rewrite generate_map_unfold. split.
  - destruct (GeoJson _ _) as [boundaries|e]; [|done].
    destruct (for_each _ _) as [circles|e] eqn:Hfor; [|done].
    intros [= <-]. exists boundaries, circles. split; [done|]. split; [|done].
    by apply for_each_Ok.
  - intros (boundaries & circles & -> & Hfor & ->).
    apply for_each_Ok in Hfor. by rewrite Hfor.
Qed.

Lemma X13_generate_map_success_witness :
  @update_map picky [adama; bahir] (mkGdf (Some "EPSG:4326") [region_col] ())
    (Some "Amhara") (Some All) (Some All)
  = Ok "".
Proof.
  apply (@X13_generate_map_success picky [adama; bahir] (mkGdf (Some "EPSG:4326") [region_col] ())
           (Some "Amhara") (Some All) (Some All) "").
  reflexivity.
Defined.



(** X15.  When a circle marker builds for every row of the map's subset, the
    map carries at least as many circles as the total the statistics show for
    the same selection, and exactly as many when the three values are
    non-empty strings. *)
Theorem X15_circles_and_total `{Collaborators}
    (df : DataFrame) (r z w : value) (circles : list Circle) :
  Forall2 (λ row c, CircleMarker (lat row, lon row) (popup_of row) = Ok c)
    (generate_map_filtered df r z w) circles →
  total_of (update_stats_and_graphs df r z w) ≤ length circles
  ∧ (truthy r = true → truthy z = true → truthy w = true →
     total_of (update_stats_and_graphs df r z w) = length circles).
Proof.
  intros Hcircles. apply Forall2_length in Hcircles. rewrite <- Hcircles.
  change (total_of (update_stats_and_graphs df r z w))
    with (length (stats_filtered df r z w)).
  split.
  - apply sublist_length, stats_sublist_map.
  - intros Hr Hz Hw. by rewrite filters_agree.
Qed.

Lemma X15_circles_and_total_witness :
  total_of (update_stats_and_graphs [adama; bahir] None (Some All) (Some All)) ≤ 2.
Proof.
  apply (@X15_circles_and_total picky [adama; bahir] None (Some All) (Some All)
           [ mkCircle (lat adama, lon adama) 4 "red" (popup_of adama);
             mkCircle (lat bahir, lon bahir) 4 "red" (popup_of bahir) ]).
  repeat constructor.
Defined.

(** X16.  Every region name the region dropdown offers selects at least one
    row, and the zone list that follows it is derived from those rows. *)
Theorem X16_offered_region_matches (df : DataFrame) (s : string) :
  s ∈ regions df →
  s ≠ All →
  stats_filtered df (Some s) (Some All) (Some All) ≠ []
  ∧ generate_map_filtered df (Some s) (Some All) (Some All) ≠ []
  ∧ ∀ zn, zn ∈ zonesFor df (Some s) →
          zn = All ∨ ∃ p, p ∈ df ∧ region p = Some s ∧ zone p = Some zn.
Proof.
  intros Hs HsAll.
  apply (elem_of_names_of region) in Hs as (p & Hp & Hreg).
  assert (Hin : p ∈ stats_filtered df (Some s) (Some All) (Some All)).
  { rewrite stats_filtered_filter. apply list_elem_of_filter. split; [|done].
    rewrite !constrains_All, !andb_true_r. apply Is_true_true, constrains_true.
    right. by split; [eexists|]. }
  split; [by intros Hnil; rewrite Hnil in Hin; apply not_elem_of_nil in Hin|].
  split.
  - intros Hnil.
    pose proof (sublist_length _ _ (stats_sublist_map df (Some s) (Some All) (Some All)))
      as Hlen.
    rewrite Hnil in Hlen. destruct (stats_filtered df _ _ _); [|simpl in Hlen; lia].
    by apply not_elem_of_nil in Hin.
  - intros zn. rewrite zonesFor_eq, elem_of_cons, elem_of_names_of.
    intros [?|(q & Hq & Hzone)]; [by left|right].
    apply list_elem_of_filter in Hq as [Hc%Is_true_true Hq].
    apply constrains_true in Hc as [[= ?]|[_ ?]]; [done|]. by exists q.
Qed.

Lemma X16_offered_region_matches_witness :
  stats_filtered sample (Some "Amhara") (Some All) (Some All) ≠ []
  ∧ generate_map_filtered sample (Some "Amhara") (Some All) (Some All) ≠ []
  ∧ ∀ zn, zn ∈ zonesFor sample (Some "Amhara") →
          zn = All ∨ ∃ p, p ∈ sample ∧ region p = Some "Amhara" ∧ zone p = Some zn.
Proof.
  apply (X16_offered_region_matches sample "Amhara"); [|done].
  change ("Amhara" ∈ ["Amhara"; "Oromia"]). apply list_elem_of_here.
Defined.

(** X17.  A resolver that is handed [None] offers ["All"] alone: with no
    region the zone list is [["All"]], and with no region or no zone the
    woreda list is [["All"]], whatever the frame holds. *)
Theorem X17_resolvers_on_None (df : DataFrame) (v : value) :
  zonesFor df None = [All]
  ∧ woredasFor df None v = [All]
  ∧ woredasFor df v None = [All].
Proof.
  rewrite zonesFor_eq, !woredasFor_eq.
  rewrite (filter_false (λ p, constrains region None p)).
  2: { intros p. unfold constrains, cell_eq. simpl. by destruct (region p). }
  rewrite (filter_false (λ p, constrains region None p && constrains zone v p)).
  2: { intros p. unfold constrains at 1, cell_eq. simpl. by destruct (region p). }
  rewrite (filter_false (λ p, constrains region v p && constrains zone None p)).
  2: { intros p. unfold constrains at 2, cell_eq. simpl.
       destruct (zone p); by rewrite andb_false_r. }
  done.
Qed.

(** X18.  The module prints the number of rows with neither a zero latitude
    nor a zero longitude before it looks at the boundary frame: that line is
    the first thing it does whether or not the start-up then fails, and
    nothing but the start of the server can follow it. *)
Theorem X18_startup_log `{Collaborators}
    (csv : list RawRow) (shp : GeoDataFrame Geometry) (is_main : bool) :
  ∃ rest, (startup csv shp is_main).1
          = PrintTotal (length (filter (λ row, valid_row row) csv)) :: rest
          ∧ (rest = [] ∨ rest = [AppRun "0.0.0.0" 8050%N]).
Proof.
  unfold startup. cbv zeta. rewrite load_points_rename, length_fmap.
  destruct (reprojected shp) as [gdf|e]; [|exists []; by split; [|left]].
  destruct (negb (bool_decide (region_col ∈ columns gdf))); simpl.
  - exists []. by split; [|left].
  - destruct is_main; simpl.
    + eexists. by split; [|right].
    + exists []. by split; [|left].
Qed.
